(** * tangoctl: build, publish and deploy a Docker image to Tango nodes

    A shallow embedding of [tangoctl.py] and [models.py].

    - Python [str] is [string]; the separators the program splits on
      ("," and "/") and searches for ("/" and ":") are single ASCII
      characters, so they are [ascii] values here.
    - [Dict[str, TangoNode]] is an insertion-ordered association list
      (Python dicts iterate in insertion order and hold each key once).
    - An uncaught Python exception is a [Raise] result; the interpreter
      turns it into exit status 1.  [assert] statements are executed (the
      interpreter is not run with [-O]).
    - [subprocess.run] and [datetime.now] talk to the operating system.
      They are the two fields of the [Host] interface: the program is
      verified against every host.  The [docker] and [ssh] executables
      exist, so that [subprocess.run] returns a completed process.  Every computation returns the events
      it caused (processes spawned with their return code, lines printed).
    - [get_config()] is cached by [lru_cache] and mutated once, by
      [parse_args_to_config]; the cached object is passed explicitly as
      [config]. *)

From Stdlib Require Import List String Ascii ZArith Lia Bool Arith DecimalString.
Import ListNotations.
Open Scope string_scope.

Set Implicit Arguments.

(** ** Python primitives *)

(** [c in s] for a one-character [c]. *)
Fixpoint str_contains (c : ascii) (s : string) : bool :=
  match s with
  | EmptyString => false
  | String x s' => if Ascii.eqb x c then true else str_contains c s'
  end.

(** [s.count(c)] for a one-character [c]. *)
Fixpoint str_count (c : ascii) (s : string) : nat :=
  match s with
  | EmptyString => 0
  | String x s' => if Ascii.eqb x c then S (str_count c s') else str_count c s'
  end.

(** [s.split(c)] for a one-character separator: never empty, nothing is
    trimmed, adjacent separators give empty tokens. *)
Fixpoint str_split (c : ascii) (s : string) : list string :=
  match s with
  | EmptyString => [EmptyString]
  | String x s' =>
      if Ascii.eqb x c then EmptyString :: str_split c s'
      else match str_split c s' with
           | tok :: toks => String x tok :: toks
           | [] => [String x EmptyString]
           end
  end.

(** [c.join(l)]. *)
Fixpoint str_join (c : ascii) (l : list string) : string :=
  match l with
  | [] => EmptyString
  | [tok] => tok
  | tok :: toks => tok ++ String c (str_join c toks)
  end.

(** [str(n)] for an [int]. *)
Definition str_of_int (n : Z) : string := NilZero.string_of_int (Z.to_int n).

(** Truth value of an [Optional[str]]: [None] and [""] are falsy. *)
Definition truthy (v : option string) : bool :=
  match v with
  | None => false
  | Some EmptyString => false
  | Some (String _ _) => true
  end.

(** [v if v else other] for [v : Optional[str]]. *)
Definition if_else (v : option string) (other : string) : string :=
  match v with
  | Some s => if truthy v then s else other
  | None => other
  end.

(** ** Exceptions and results *)

Inductive exn : Type :=
| KeyError (key : string)
| IndexError
| AssertionError (msg : string)
| Exception (msg : string).

Inductive Res (A : Type) : Type :=
| Ok (a : A)
| Raise (e : exn).
Arguments Raise {A} e.

Definition res_bind {A B} (r : Res A) (k : A -> Res B) : Res B :=
  match r with
  | Ok a => k a
  | Raise e => Raise e
  end.

(** A list comprehension [[f(x) for x in l]] whose body may raise: the
    first exception ends it and no list is produced. *)
Fixpoint list_comprehension {A B} (f : A -> Res B) (l : list A) : Res (list B) :=
  match l with
  | [] => Ok []
  | x :: l' =>
      res_bind (f x) (fun y =>
      res_bind (list_comprehension f l') (fun ys => Ok (y :: ys)))
  end.

(** [l[i]] *)
Definition list_getitem {A} (l : list A) (i : nat) : Res A :=
  match nth_error l i with
  | Some a => Ok a
  | None => Raise IndexError
  end.

(** ** Dictionaries *)

Definition dict (V : Type) : Type := list (string * V).

Definition dict_keys {V} (d : dict V) : list string := map fst d.
Definition dict_values {V} (d : dict V) : list V := map snd d.

Fixpoint dict_get {V} (d : dict V) (key : string) : option V :=
  match d with
  | [] => None
  | (k, v) :: d' => if String.eqb k key then Some v else dict_get d' key
  end.

(** [d[key]] *)
Definition dict_getitem {V} (d : dict V) (key : string) : Res V :=
  match dict_get d key with
  | Some v => Ok v
  | None => Raise (KeyError key)
  end.

(** The invariant of a Python dict: each key is held once. *)
Definition dict_wf {V} (d : dict V) : Prop := NoDup (dict_keys d).

(** ** models.py *)

Module TangoNode.
Record t : Type := Build {
  fqdn : string;
  ssh_key_path : option string;
  ssh_username : option string;
  volumes_path : option string
}.
End TangoNode.

Module Config.
Record t : Type := Build {
  docker_hub_org : string;
  ssh_key_path : string;
  ssh_username : string;
  volumes_path : string;
  tango_nodes : dict TangoNode.t
}.
End Config.

(** ** The parsed command line

    [argparse] is configured with three sub-commands and
    [required=True]; [Namespace] holds the three global options and the
    positional arguments of the chosen sub-command ([tango_node] only for
    [deploy], [dockerfile] only for [build] and [aio]). *)

Inductive Command : Type := build_cmd | deploy_cmd | aio_cmd.

Module Namespace.
Record t : Type := Build {
  org : option string;
  ssh_key_path : option string;
  ssh_username : option string;
  command : Command;
  dockerfile : string;
  image_name : string;
  tango_node : string
}.
End Namespace.

(** ** Wall clock *)

Record datetime : Type := {
  year : Z; month : Z; day : Z;
  hour : Z; minute : Z; second : Z
}.

(** The dates and times the clock of a host gives: the ranges of the
    fields of a [datetime], with a year of four digits. *)
Definition valid_datetime (d : datetime) : Prop :=
  (1000 <= year d <= 9999 /\ 1 <= month d <= 12 /\ 1 <= day d <= 31 /\
   0 <= hour d < 24 /\ 0 <= minute d < 60 /\ 0 <= second d < 60)%Z.

Definition digit (n : Z) : ascii := ascii_of_N (Z.to_N (48 + n mod 10)).

(** The last [width] decimal digits of [n]: the zero-padded decimal
    number of [n] when [0 <= n < 10 ^ width]. *)
Fixpoint zero_padded (width : nat) (n : Z) : string :=
  match width with
  | 0 => EmptyString
  | S w => zero_padded w (n / 10) ++ String (digit n) EmptyString
  end.

(** [%Y]: the year as a decimal number.  The C library does not pad it:
    a year below 1000 is printed with fewer than four digits (a
    [datetime] holds the years 1 to 9999). *)
Definition year_digits (y : Z) : string :=
  if (y <? 10)%Z then zero_padded 1 y
  else if (y <? 100)%Z then zero_padded 2 y
  else if (y <? 1000)%Z then zero_padded 3 y
  else zero_padded 4 y.

(** [d.strftime("%Y.%m.%d.%H%M%S")]: [%m], [%d], [%H], [%M] and [%S] are
    zero-padded to two digits. *)
Definition strftime (d : datetime) : string :=
  year_digits (year d) ++ "." ++ zero_padded 2 (month d) ++ "." ++
  zero_padded 2 (day d) ++ "." ++ zero_padded 2 (hour d) ++
  zero_padded 2 (minute d) ++ zero_padded 2 (second d).

(** ** The host and the computations that use it *)

Class Host : Type := {
  World : Type;
  (** [subprocess.run(argv)] without [check]: the process runs to its end
      and its return code comes back. *)
  spawn : list string -> World -> Z * World;
  (** [datetime.now()] *)
  clock : World -> datetime
}.

Inductive event : Type :=
| Spawned (argv : list string) (returncode : Z)
| Printed (line : string).

Definition spawned (t : list event) : list (list string * Z) :=
  flat_map (fun e => match e with
                     | Spawned argv rc => [(argv, rc)]
                     | Printed _ => []
                     end) t.

Definition argvs (t : list event) : list (list string) := map fst (spawned t).

Section Program.
Context {host : Host}.

(** A computation: from a world to a result or an exception, the world
    afterwards and the events caused, oldest first. *)
Definition M (A : Type) : Type := World -> Res A * World * list event.

Definition ret {A} (a : A) : M A := fun w => (Ok a, w, []).

Definition raise {A} (e : exn) : M A := fun w => (Raise e, w, []).

Definition bind {A B} (m : M A) (k : A -> M B) : M B :=
  fun w =>
    match m w with
    | (Ok a, w1, t1) =>
        match k a w1 with
        | (r, w2, t2) => (r, w2, (t1 ++ t2)%list)
        end
    | (Raise e, w1, t1) => (Raise e, w1, t1)
    end.

Definition lift {A} (r : Res A) : M A := fun w => (r, w, []).

Definition assert (b : bool) (msg : string) : M unit :=
  if b then ret tt else raise (AssertionError msg).

Definition print (line : string) : M unit :=
  fun w => (Ok tt, w, [Printed line]).

Definition subprocess_run (argv : list string) : M Z :=
  fun w => let (rc, w') := spawn argv w in (Ok rc, w', [Spawned argv rc]).

Definition datetime_now : M datetime := fun w => (Ok (clock w), w, []).

(** [for x in l: body(x)] *)
Fixpoint for_each {A} (l : list A) (body : A -> M unit) : M unit :=
  match l with
  | [] => ret tt
  | x :: l' => bind (body x) (fun _ => for_each l' body)
  end.

End Program.

Notation "x <- m ;; k" := (bind m (fun x => k))
  (at level 61, m at next level, right associativity).
Notation "m ;;; k" := (bind m (fun _ => k))
  (at level 61, right associativity).

(** ** tangoctl.py *)

Section Tangoctl.
Context {host : Host}.

Definition parse_args_to_config (config : Config.t) (args : Namespace.t)
  : Config.t :=
  Config.Build
    (if_else (Namespace.org args) (Config.docker_hub_org config))
    (if_else (Namespace.ssh_key_path args) (Config.ssh_key_path config))
    (if_else (Namespace.ssh_username args) (Config.ssh_username config))
    (Config.volumes_path config)
    (Config.tango_nodes config).

Definition get_tango_node (config : Config.t) (name : string)
  : Res TangoNode.t :=
  dict_getitem (Config.tango_nodes config) name.

Definition node_list_to_nodes (config : Config.t) (node_list : string)
  : Res (list TangoNode.t) :=
  if String.eqb node_list "all" then
    Ok (dict_values (Config.tango_nodes config))
  else
    list_comprehension (get_tango_node config) (str_split "," node_list).

Definition get_date_time_stamp : M string :=
  now <- datetime_now ;; ret (strftime now).

Definition build_docker_image_from_dockerfile (dockerfile image_name : string)
  : M string :=
  assert (negb (str_contains ":" image_name))
         "image_name should not include a tag" ;;;
  assert (Nat.eqb (str_count "/" image_name) 1)
         "image_name should include exactly one slash (for the org)" ;;;
  timestamp_tag <- get_date_time_stamp ;;
  let image_name_timestamp := image_name ++ ":" ++ timestamp_tag in
  let image_name_latest := image_name ++ ":latest" in
  subprocess_run ["docker"; "build"; "-t"; image_name_timestamp; dockerfile] ;;;
  subprocess_run ["docker"; "tag"; image_name_timestamp; image_name_latest] ;;;
  ret image_name_latest.

Definition push_docker_image (image_name : string) : M unit :=
  subprocess_run ["docker"; "push"; image_name] ;;; ret tt.

(** The [ssh] command line of one remote command. *)
Definition ssh_argv (ssh_key_path ssh_user_host command : string)
  : list string :=
  ["ssh"; "-o"; "IdentitiesOnly=yes"; "-i"; ssh_key_path; ssh_user_host; command].

Definition command_failed (fqdn command : string) (returncode : Z) : exn :=
  Exception ("Command failed on " ++ fqdn ++ ": " ++ command ++
             ". Status code: " ++ str_of_int returncode).

Definition run_command_on_tango_node (config : Config.t) (command : string)
           (tango_node : TangoNode.t) : M unit :=
  let ssh_key_path :=
    if_else (TangoNode.ssh_key_path tango_node) (Config.ssh_key_path config) in
  let ssh_username :=
    if_else (TangoNode.ssh_username tango_node) (Config.ssh_username config) in
  let ssh_user_host := ssh_username ++ "@" ++ TangoNode.fqdn tango_node in
  returncode <- subprocess_run (ssh_argv ssh_key_path ssh_user_host command) ;;
  if Z.eqb returncode 0 then ret tt
  else raise (command_failed (TangoNode.fqdn tango_node) command returncode).

Definition deploy_docker_image (config : Config.t) (image_name : string)
           (tango_node : TangoNode.t) : M unit :=
  print ("Deploying image " ++ image_name ++ " to " ++
         TangoNode.fqdn tango_node ++ "...") ;;;
  image_name_without_org <- lift (list_getitem (str_split "/" image_name) 1) ;;
  run_command_on_tango_node config ("docker pull " ++ image_name) tango_node ;;;
  run_command_on_tango_node config
    ("docker tag " ++ image_name ++ " " ++ image_name_without_org) tango_node ;;;
  run_command_on_tango_node config ("docker image rm " ++ image_name) tango_node ;;;
  print ("Finished deploying image " ++ image_name ++ " to " ++
         TangoNode.fqdn tango_node).

Definition build (config : Config.t) (args : Namespace.t) : M string :=
  let org := Config.docker_hub_org config in
  let image_name := org ++ "/" ++ Namespace.image_name args in
  assert (negb (str_contains "/" (Namespace.image_name args)))
         ("image_name, as an argument, should not include a slash " ++
          "(do not specify an org here, use --org instead)") ;;;
  build_docker_image_from_dockerfile (Namespace.dockerfile args) image_name.

Definition deploy (config : Config.t) (args : Namespace.t) : M unit :=
  target_nodes <- lift (node_list_to_nodes config (Namespace.tango_node args)) ;;
  let image := Namespace.image_name args in
  for_each target_nodes (fun node => deploy_docker_image config image node).

Definition aio (config : Config.t) (args : Namespace.t) : M unit :=
  image_name_latest <- build config args ;;
  push_docker_image image_name_latest ;;;
  let target_nodes := dict_values (Config.tango_nodes config) in
  for_each target_nodes
           (fun node => deploy_docker_image config image_name_latest node).

(** [config] is what [config.yaml] held when [get_config()] first ran. *)
Definition main (config : Config.t) (args : Namespace.t) : M unit :=
  let config := parse_args_to_config config args in
  match Namespace.command args with
  | build_cmd => build config args ;;; ret tt
  | deploy_cmd => deploy config args
  | aio_cmd => aio config args
  end.

(** The exit status of the interpreter: 0 when [main] returns, 1 when an
    exception reaches the top level. *)
Definition exit_status (r : Res unit) : Z :=
  match r with
  | Ok _ => 0
  | Raise _ => 1
  end.

Definition exit_code (config : Config.t) (args : Namespace.t) (w : World) : Z :=
  exit_status (fst (fst (main config args w))).

End Tangoctl.

(** The [ssh] command line [run_command_on_tango_node] builds for
    [command] on [tango_node]. *)
Definition remote_argv (config : Config.t) (tango_node : TangoNode.t)
           (command : string) : list string :=
  ssh_argv
    (if_else (TangoNode.ssh_key_path tango_node) (Config.ssh_key_path config))
    (if_else (TangoNode.ssh_username tango_node) (Config.ssh_username config)
     ++ "@" ++ TangoNode.fqdn tango_node)
    command.

(** ** What the specification says, in its own words *)


Definition is_digit (c : ascii) : bool :=
  Nat.leb 48 (nat_of_ascii c) && Nat.leb (nat_of_ascii c) 57.

Definition is_upper (c : ascii) : bool :=
  Nat.leb 65 (nat_of_ascii c) && Nat.leb (nat_of_ascii c) 90.

(** [has_format pattern s]: [s] is [pattern] with one decimal digit in
    the place of each capital letter, as in "YYYY.MM.DD.HHMMSS". *)
Fixpoint has_format (pattern s : string) : bool :=
  match pattern, s with
  | EmptyString, EmptyString => true
  | String p pattern', String c s' =>
      (if is_upper p then is_digit c else Ascii.eqb p c) && has_format pattern' s'
  | _, _ => false
  end.

(** Reading a time stamp back: [width] decimal digits as a number, a
    given character, and the format YYYY.MM.DD.HHMMSS as a whole, which
    gives the date and time the stamp was made from. *)
Definition digit_value (c : ascii) : Z := (Z.of_N (N_of_ascii c) - 48)%Z.

Fixpoint read_number (width : nat) (acc : Z) (s : string) : option (Z * string) :=
  match width with
  | 0 => Some (acc, s)
  | S width' =>
      match s with
      | String c s' =>
          if is_digit c then read_number width' (10 * acc + digit_value c)%Z s'
          else None
      | EmptyString => None
      end
  end.

Definition read_char (c : ascii) (s : string) : option string :=
  match s with
  | String x s' => if Ascii.eqb x c then Some s' else None
  | EmptyString => None
  end.

Definition parse_timestamp (s : string) : option datetime :=
  match read_number 4 0 s with
  | Some (y, s) =>
  match read_char "." s with
  | Some s =>
  match read_number 2 0 s with
  | Some (mo, s) =>
  match read_char "." s with
  | Some s =>
  match read_number 2 0 s with
  | Some (d, s) =>
  match read_char "." s with
  | Some s =>
  match read_number 2 0 s with
  | Some (h, s) =>
  match read_number 2 0 s with
  | Some (mi, s) =>
  match read_number 2 0 s with
  | Some (sec, EmptyString) =>
      Some {| year := y; month := mo; day := d;
              hour := h; minute := mi; second := sec |}
  | _ => None
  end
  | None => None
  end
  | None => None
  end
  | None => None
  end
  | None => None
  end
  | None => None
  end
  | None => None
  end
  | None => None
  end
  | None => None
  end.

(** ** A scripted host

    A host to run the program on: a local image store that does what
    [docker build -t] and [docker tag] do, a fixed wall clock, and a script
    of return codes that makes chosen processes fail (a non-zero entry
    fails the process without effect, a zero entry or an exhausted script
    lets it run). *)

Record Scripted : Type := {
  returncodes : list Z;
  images : dict nat;
  wall_clock : datetime
}.

Definition docker_daemon (argv : list string) (store : dict nat) : Z * dict nat :=
  match argv with
  | ["docker"; "build"; "-t"; ref; _] => (0%Z, (ref, List.length store) :: store)
  | ["docker"; "tag"; src; dst] =>
      match dict_get store src with
      | Some id => (0%Z, (dst, id) :: store)
      | None => (1%Z, store)
      end
  | _ => (0%Z, store)
  end.

Definition scripted_spawn (argv : list string) (w : Scripted) : Z * Scripted :=
  let forced := hd 0%Z (returncodes w) in
  let rest := tl (returncodes w) in
  if Z.eqb forced 0 then
    let (rc, store) := docker_daemon argv (images w) in
    (rc, {| returncodes := rest; images := store; wall_clock := wall_clock w |})
  else
    (forced, {| returncodes := rest; images := images w; wall_clock := wall_clock w |}).

Definition scripted : Host :=
  {| World := Scripted; spawn := scripted_spawn; clock := wall_clock |}.

(** The image a reference names in the store of the scripted host. *)
Definition scripted_image_of (w : Scripted) (ref : string) : option nat :=
  dict_get (images w) ref.

Definition noon : datetime :=
  {| year := 2024; month := 3; day := 5; hour := 12; minute := 0; second := 9 |}.

Definition script (rcs : list Z) : Scripted :=
  {| returncodes := rcs; images := []; wall_clock := noon |}.

(** ** A sample configuration *)

Definition node_a : TangoNode.t :=
  TangoNode.Build "a.example.org" None None None.

(** Only the user name is overridden. *)
Definition node_b : TangoNode.t :=
  TangoNode.Build "b.example.org" None (Some "deploy") None.

(** Both overrides are present and empty. *)
Definition node_c : TangoNode.t :=
  TangoNode.Build "c.example.org" (Some "") (Some "") None.

Definition sample_config : Config.t :=
  Config.Build "acme" "/home/op/.ssh/id_ed25519" "tango" "/srv/volumes"
               [("nodeA", node_a); ("nodeB", node_b); ("nodeC", node_c)].

Definition build_args (image_name : string) : Namespace.t :=
  Namespace.Build None None None build_cmd "./svc" image_name "".

Definition deploy_args (image_name node_list : string) : Namespace.t :=
  Namespace.Build None None None deploy_cmd "" image_name node_list.


Definition aio_args (image_name : string) : Namespace.t :=
  Namespace.Build None None None aio_cmd "./svc" image_name "".

(** A build with [--org other]. *)
Definition build_args_org (org image_name : string) : Namespace.t :=
  Namespace.Build (Some org) None None build_cmd "./svc" image_name "".

(** Fifty-one seconds after [noon]. *)
Definition later : datetime :=
  {| year := 2024; month := 3; day := 5; hour := 12; minute := 1; second := 0 |}.

(** ** Vocabulary of the further properties *)


(** The checks [build] and [build_docker_image_from_dockerfile] make on
    the organization and the bare name, as one test. *)
Definition name_checks_fail (org name : string) : bool :=
  str_contains "/" name || str_contains "/" org
  || str_contains ":" org || str_contains ":" name.

(** Chronological order of [datetime] objects: field by field, the most
    significant first (what [<] on two naive datetimes computes). *)
Definition lexicographic (c1 c2 : comparison) : comparison :=
  match c1 with
  | Eq => c2
  | _ => c1
  end.

Definition datetime_compare (d1 d2 : datetime) : comparison :=
  lexicographic (year d1 ?= year d2)%Z
    (lexicographic (month d1 ?= month d2)%Z
       (lexicographic (day d1 ?= day d2)%Z
          (lexicographic (hour d1 ?= hour d2)%Z
             (lexicographic (minute d1 ?= minute d2)%Z
                            (second d1 ?= second d2)%Z)))).


(** A node and a configuration with every [volumes_path] blanked. *)
Definition without_volumes_node (tango_node : TangoNode.t) : TangoNode.t :=
  TangoNode.Build (TangoNode.fqdn tango_node)
                  (TangoNode.ssh_key_path tango_node)
                  (TangoNode.ssh_username tango_node)
                  None.

Definition without_volumes (config : Config.t) : Config.t :=
  Config.Build (Config.docker_hub_org config)
               (Config.ssh_key_path config)
               (Config.ssh_username config)
               ""
               (map (fun kv => (fst kv, without_volumes_node (snd kv)))
                    (Config.tango_nodes config)).

(** * Properties *)

Unset Implicit Arguments.

(** ** Strings *)

Lemma str_split_not_nil (c : ascii) (s : string) : str_split c s <> [].
Proof.
  destruct s as [|x s]; simpl; [discriminate|].
  destruct (Ascii.eqb x c); [discriminate|].
  destruct (str_split c s); discriminate.
Qed.

(** Splitting loses nothing: the tokens are the selector's own text. *)
Lemma str_join_split (c : ascii) (s : string) :
  str_join c (str_split c s) = s.
Proof.
  induction s as [|x s IH]; simpl; [reflexivity|].
  destruct (Ascii.eqb_spec x c) as [->|Hne].
  - pose proof (str_split_not_nil c s) as Hnil.
    destruct (str_split c s) as [|tok toks]; [contradiction|].
    simpl in *. now rewrite IH.
  - pose proof (str_split_not_nil c s) as Hnil.
    destruct (str_split c s) as [|tok toks]; [contradiction|].
    destruct toks as [|tok' toks]; simpl in *; now rewrite <- IH.
Qed.

Lemma str_split_tokens (c : ascii) (s : string) :
  Forall (fun tok => str_contains c tok = false) (str_split c s).
Proof.
  induction s as [|x s IH]; simpl.
  - constructor; [reflexivity|constructor].
  - destruct (Ascii.eqb x c) eqn:E.
    + constructor; [reflexivity|assumption].
    + destruct (str_split c s) as [|tok toks].
      * constructor; [simpl; now rewrite E|constructor].
      * inversion IH; subst. constructor; [simpl; now rewrite E|assumption].
Qed.

Lemma str_split_one (c : ascii) (s : string) :
  str_contains c s = false -> str_split c s = [s].
Proof.
  induction s as [|x s IH]; simpl; [reflexivity|].
  destruct (Ascii.eqb x c); [discriminate|].
  intros H. now rewrite (IH H).
Qed.

Lemma str_split_app (c : ascii) (a b : string) :
  str_contains c a = false ->
  str_split c (a ++ String c b) = a :: str_split c b.
Proof.
  induction a as [|x a IH]; simpl.
  - intros _. now rewrite Ascii.eqb_refl.
  - destruct (Ascii.eqb x c); [discriminate|].
    intros H. now rewrite (IH H).
Qed.

Lemma str_contains_app (c : ascii) (a b : string) :
  str_contains c (a ++ b) = str_contains c a || str_contains c b.
Proof.
  induction a as [|x a IH]; simpl; [reflexivity|].
  now destruct (Ascii.eqb x c).
Qed.

Lemma str_count_app (c : ascii) (a b : string) :
  str_count c (a ++ b) = str_count c a + str_count c b.
Proof.
  induction a as [|x a IH]; simpl; [reflexivity|].
  destruct (Ascii.eqb x c); simpl; now rewrite IH.
Qed.

Lemma str_count_0 (c : ascii) (s : string) :
  str_count c s = 0 <-> str_contains c s = false.
Proof.
  induction s as [|x s IH]; simpl; [tauto|].
  destruct (Ascii.eqb x c); [split; discriminate|exact IH].
Qed.

Lemma append_inj_l (a b c : string) : a ++ b = a ++ c -> b = c.
Proof.
  induction a as [|x a IH]; simpl; [trivial|].
  intros H. injection H as H. auto.
Qed.

(** ** The time stamp *)

Lemma is_digit_digit (n : Z) : is_digit (digit n) = true.
Proof.
  unfold digit.
  assert (H : (0 <= n mod 10 < 10)%Z) by (apply Z.mod_pos_bound; lia).
  assert (E : (n mod 10 = 0 \/ n mod 10 = 1 \/ n mod 10 = 2 \/ n mod 10 = 3 \/
               n mod 10 = 4 \/ n mod 10 = 5 \/ n mod 10 = 6 \/ n mod 10 = 7 \/
               n mod 10 = 8 \/ n mod 10 = 9)%Z) by lia.
  repeat (destruct E as [E|E]; [rewrite E; reflexivity|]).
  rewrite E. reflexivity.
Qed.

Lemma year_digits_valid (y : Z) :
  (1000 <= y)%Z -> year_digits y = zero_padded 4 y.
Proof.
  intros Hy. unfold year_digits.
  destruct (Z.ltb_spec y 10); [lia|].
  destruct (Z.ltb_spec y 100); [lia|].
  destruct (Z.ltb_spec y 1000); [lia|reflexivity].
Qed.

Lemma strftime_format (d : datetime) :
  valid_datetime d ->
  has_format "YYYY.MM.DD.HHMMSS" (strftime d) = true.
Proof.
  intros (Hy & _).
  unfold strftime. rewrite year_digits_valid by lia.
  cbn [zero_padded append has_format].
  cbv [is_upper].
  repeat rewrite is_digit_digit. reflexivity.
Qed.

Example strftime_noon : strftime noon = "2024.03.05.120009".
Proof. reflexivity. Qed.

Example strftime_year_999 :
  strftime {| year := 999; month := 1; day := 2;
              hour := 3; minute := 4; second := 5 |}
  = "999.01.02.030405".
Proof. reflexivity. Qed.

Lemma strftime_not_latest (d : datetime) : strftime d <> "latest".
Proof.
  intros H.
  apply (f_equal (fun s => match s with
                           | String c _ => is_digit c
                           | EmptyString => false
                           end)) in H.
  unfold strftime, year_digits in H.
  destruct (year d <? 10)%Z, (year d <? 100)%Z, (year d <? 1000)%Z;
    cbn [zero_padded append] in H; rewrite is_digit_digit in H; discriminate.
Qed.

Lemma digit_inj (a b : Z) : digit a = digit b -> (a mod 10 = b mod 10)%Z.
Proof.
  unfold digit. intros H.
  assert (Ha : (0 <= a mod 10 < 10)%Z) by (apply Z.mod_pos_bound; lia).
  assert (Hb : (0 <= b mod 10 < 10)%Z) by (apply Z.mod_pos_bound; lia).
  apply (f_equal N_of_ascii) in H.
  rewrite !N_ascii_embedding in H by lia. lia.
Qed.

Lemma two_digits_inj (a b : Z) :
  (0 <= a < 100)%Z -> (0 <= b < 100)%Z ->
  digit (a / 10) = digit (b / 10) -> digit a = digit b -> a = b.
Proof.
  intros Ha Hb H1 H0. apply digit_inj in H1, H0.
  Z.div_mod_to_equations. lia.
Qed.

Lemma four_digits_inj (a b : Z) :
  (0 <= a < 10000)%Z -> (0 <= b < 10000)%Z ->
  digit (a / 10 / 10 / 10) = digit (b / 10 / 10 / 10) ->
  digit (a / 10 / 10) = digit (b / 10 / 10) ->
  digit (a / 10) = digit (b / 10) -> digit a = digit b -> a = b.
Proof.
  intros Ha Hb H3 H2 H1 H0. apply digit_inj in H3, H2, H1, H0.
  Z.div_mod_to_equations. lia.
Qed.

(** X15. On the dates and times a clock gives, the stamp loses nothing: two
    builds started at different seconds get different time stamps. *)
Lemma strftime_inj (d1 d2 : datetime) :
  valid_datetime d1 -> valid_datetime d2 ->
  strftime d1 = strftime d2 -> d1 = d2.
Proof.
  destruct d1 as [y1 mo1 dd1 h1 mi1 s1], d2 as [y2 mo2 dd2 h2 mi2 s2].
  unfold valid_datetime, strftime. cbn [year month day hour minute second].
  intros (Hy1 & Hmo1 & Hd1 & Hh1 & Hmi1 & Hs1) (Hy2 & Hmo2 & Hd2 & Hh2 & Hmi2 & Hs2).
  rewrite !year_digits_valid by lia.
  cbn [zero_padded append]. intros H.
  injection H as Y3 Y2 Y1 Y0 MO1 MO0 D1 D0 HH1 HH0 MI1 MI0 S1 S0.
  f_equal.
  - apply four_digits_inj; trivial; lia.
  - apply two_digits_inj; trivial; lia.
  - apply two_digits_inj; trivial; lia.
  - apply two_digits_inj; trivial; lia.
  - apply two_digits_inj; trivial; lia.
  - apply two_digits_inj; trivial; lia.
Qed.

Lemma digit_value_digit (n : Z) : digit_value (digit n) = (n mod 10)%Z.
Proof.
  unfold digit_value, digit.
  assert (H : (0 <= n mod 10 < 10)%Z) by (apply Z.mod_pos_bound; lia).
  rewrite N_ascii_embedding by lia. rewrite Z2N.id by lia. lia.
Qed.

Lemma read_two_digits (n : Z) (s : string) :
  (0 <= n < 100)%Z ->
  read_number 2 0 (zero_padded 2 n ++ s) = Some (n, s).
Proof.
  intros Hn. cbn [zero_padded append read_number].
  rewrite !is_digit_digit, !digit_value_digit.
  do 2 f_equal. Z.div_mod_to_equations. lia.
Qed.

Lemma read_four_digits (n : Z) (s : string) :
  (0 <= n < 10000)%Z ->
  read_number 4 0 (zero_padded 4 n ++ s) = Some (n, s).
Proof.
  intros Hn. cbn [zero_padded append read_number].
  rewrite !is_digit_digit, !digit_value_digit.
  do 2 f_equal. Z.div_mod_to_equations. lia.
Qed.

(** Reading back the stamp of a date and time gives that date and time:
    the stamp is made of the fields of the clock. *)
Lemma parse_timestamp_strftime (d : datetime) :
  valid_datetime d -> parse_timestamp (strftime d) = Some d.
Proof.
  destruct d as [y mo dd h mi sec].
  unfold valid_datetime, strftime, parse_timestamp.
  cbn [year month day hour minute second].
  intros (Hy & Hmo & Hd & Hh & Hmi & Hs).
  rewrite year_digits_valid by lia.
  rewrite read_four_digits by lia. cbn [append read_char].
  change (Ascii.eqb "." ".") with true. cbv iota.
  rewrite read_two_digits by lia. cbn [append read_char].
  change (Ascii.eqb "." ".") with true. cbv iota.
  rewrite read_two_digits by lia. cbn [append read_char].
  change (Ascii.eqb "." ".") with true. cbv iota.
  rewrite read_two_digits by lia.
  rewrite read_two_digits by lia.
  change (zero_padded 2 sec) with (zero_padded 2 sec ++ "").
  rewrite read_two_digits by lia. reflexivity.
Qed.

(** ** Lists, dictionaries and comprehensions *)

Lemma Forall2_impl_In {A B} (R1 R2 : A -> B -> Prop) (l1 : list A) (l2 : list B) :
  (forall a b, In a l1 -> R1 a b -> R2 a b) ->
  Forall2 R1 l1 l2 -> Forall2 R2 l1 l2.
Proof.
  intros Himp H. induction H as [|a b l1 l2 Hab _ IH]; constructor.
  - apply Himp; [now left|assumption].
  - apply IH. intros a' b' Hin. apply Himp. now right.
Qed.

(** In a well-formed dictionary the i-th value is what the i-th key maps
    to. *)
Lemma dict_values_by_key {V} (d : dict V) :
  dict_wf d ->
  Forall2 (fun key v => dict_get d key = Some v) (dict_keys d) (dict_values d).
Proof.
  unfold dict_wf, dict_keys, dict_values.
  induction d as [|[k v] d IH]; simpl; intros Hwf; [constructor|].
  inversion Hwf as [|? ? Hnotin Hnodup]; subst.
  constructor.
  - now rewrite String.eqb_refl.
  - apply Forall2_impl_In with (R1 := fun key v => dict_get d key = Some v);
      [|now apply IH].
    intros key v' Hin Hget.
    destruct (String.eqb_spec k key) as [->|_]; [contradiction|assumption].
Qed.

Lemma list_comprehension_ok {A B} (f : A -> Res B) (l : list A) (ys : list B) :
  Forall2 (fun x y => f x = Ok y) l ys -> list_comprehension f l = Ok ys.
Proof.
  induction 1 as [|x y l ys Hxy _ IH]; simpl; [reflexivity|].
  now rewrite Hxy, IH.
Qed.

Lemma get_tango_node_some (config : Config.t) (name : string) (node : TangoNode.t) :
  dict_get (Config.tango_nodes config) name = Some node <->
  get_tango_node config name = Ok node.
Proof.
  unfold get_tango_node, dict_getitem.
  destruct (dict_get (Config.tango_nodes config) name); split; congruence.
Qed.

(** The comprehension over the tokens stops at the first name the
    configuration does not hold. *)
Lemma list_comprehension_unknown (config : Config.t) (names : list string) :
  Exists (fun name => dict_get (Config.tango_nodes config) name = None) names ->
  exists known name rest,
    names = (known ++ name :: rest)%list /\
    Forall (fun k => dict_get (Config.tango_nodes config) k <> None) known /\
    dict_get (Config.tango_nodes config) name = None /\
    list_comprehension (get_tango_node config) names = Raise (KeyError name).
Proof.
  induction names as [|x names IH]; intros Hex; [inversion Hex|].
  destruct (dict_get (Config.tango_nodes config) x) as [node|] eqn:Hx.
  - inversion Hex as [? ? Habs|? ? Htl]; subst; [congruence|].
    destruct (IH Htl) as (known & name & rest & -> & Hknown & Hname & Hraise).
    exists (x :: known), name, rest. repeat split; trivial.
    + constructor; [congruence|assumption].
    + simpl. unfold get_tango_node at 1, dict_getitem. rewrite Hx. simpl.
      now rewrite Hraise.
  - exists [], x, names. repeat split; trivial.
    simpl. unfold get_tango_node at 1, dict_getitem. now rewrite Hx.
Qed.

(** ** Node resolution *)

(** C5. Resolving the selector "all" returns the values of the node
    mapping in the mapping's order: one node per name, the i-th node
    being the one the i-th name maps to. *)
Theorem node_list_all (config : Config.t) :
  dict_wf (Config.tango_nodes config) ->
  node_list_to_nodes config "all" = Ok (dict_values (Config.tango_nodes config)) /\
  List.length (dict_values (Config.tango_nodes config)) =
    List.length (dict_keys (Config.tango_nodes config)) /\
  Forall2 (fun name node => get_tango_node config name = Ok node)
          (dict_keys (Config.tango_nodes config))
          (dict_values (Config.tango_nodes config)).
Proof.
  intros Hwf. split; [reflexivity|]. split.
  - unfold dict_values, dict_keys. now rewrite !length_map.
  - apply Forall2_impl_In
      with (R1 := fun key v => dict_get (Config.tango_nodes config) key = Some v).
    + intros name node _. apply get_tango_node_some.
    + now apply dict_values_by_key.
Qed.

Lemma node_list_all_witness :
  node_list_to_nodes sample_config "all" = Ok [node_a; node_b; node_c] /\
  Forall2 (fun name node => get_tango_node sample_config name = Ok node)
          ["nodeA"; "nodeB"; "nodeC"] [node_a; node_b; node_c].
Proof.
  assert (Hwf : dict_wf (Config.tango_nodes sample_config)).
  { unfold dict_wf. simpl. repeat constructor; simpl; intuition discriminate. }
  destruct (node_list_all sample_config Hwf) as (H1 & _ & H3).
  split; [exact H1|exact H3].
Defined.

(** C6. A selector other than "all" whose comma-separated tokens all name
    nodes resolves to the nodes of its tokens, in token order, a repeated
    token giving a repeated node; the tokens are the text between the
    commas, untrimmed (joined by commas they give back the selector). *)
Theorem node_list_tokens (config : Config.t) (node_list : string)
        (nodes : list TangoNode.t) :
  node_list <> "all" ->
  Forall2 (fun name node => dict_get (Config.tango_nodes config) name = Some node)
          (str_split "," node_list) nodes ->
  node_list_to_nodes config node_list = Ok nodes /\
  str_join "," (str_split "," node_list) = node_list.
Proof.
  intros Hall Htok. split; [|apply str_join_split].
  unfold node_list_to_nodes.
  destruct (String.eqb_spec node_list "all"); [contradiction|].
  apply list_comprehension_ok.
  apply Forall2_impl_In
    with (R1 := fun name node =>
                  dict_get (Config.tango_nodes config) name = Some node);
    [|assumption].
  intros name node _. apply get_tango_node_some.
Qed.

Lemma node_list_tokens_witness :
  node_list_to_nodes sample_config "nodeA,nodeB,nodeA"
  = Ok [node_a; node_b; node_a].
Proof.
  apply (node_list_tokens sample_config "nodeA,nodeB,nodeA").
  - discriminate.
  - simpl. repeat constructor.
Defined.

Example node_list_not_trimmed :
  node_list_to_nodes sample_config "nodeA, nodeB" = Raise (KeyError " nodeB").
Proof. reflexivity. Qed.

(** ** Computations *)

Lemma spawned_app (t1 t2 : list event) :
  spawned (t1 ++ t2) = (spawned t1 ++ spawned t2)%list.
Proof. unfold spawned. apply flat_map_app. Qed.

Ltac unfold_monad :=
  unfold bind, ret, raise, lift, assert, print, subprocess_run, datetime_now.

Section Properties.
Context {host : Host}.

(** A loop whose body raises at [x] ends there: what follows [x] is
    never run. *)
Lemma for_each_raise {A} (body : A -> M unit) (before after : list A) (x : A)
      (w w1 w2 : World) (t1 t2 : list event) (e : exn) :
  for_each before body w = (Ok tt, w1, t1) ->
  body x w1 = (Raise e, w2, t2) ->
  for_each (before ++ x :: after) body w = (Raise e, w2, (t1 ++ t2)%list).
Proof.
  revert w t1.
  induction before as [|b before IH]; simpl; intros w t1 Hbefore Hx.
  - unfold ret in Hbefore. injection Hbefore as <- <-.
    unfold bind. now rewrite Hx.
  - unfold bind in *.
    destruct (body b w) as [[[[]|eb] wb] tb]; [|discriminate].
    destruct (for_each before body wb) as [[r w'] t'] eqn:Hrest.
    injection Hbefore as -> -> <-.
    rewrite (IH wb t' Hrest Hx). now rewrite app_assoc.
Qed.

(** One remote command: one [ssh] process, and an exception when its
    return code is not 0. *)
Lemma run_command_on_tango_node_eq (config : Config.t) (command : string)
      (tango_node : TangoNode.t) (w : World) :
  run_command_on_tango_node config command tango_node w =
  (let (rc, w') := spawn (remote_argv config tango_node command) w in
   (if Z.eqb rc 0 then Ok tt
    else Raise (command_failed (TangoNode.fqdn tango_node) command rc),
    w', [Spawned (remote_argv config tango_node command) rc])).
Proof.
  unfold run_command_on_tango_node, remote_argv. unfold_monad.
  destruct (spawn _ w) as [rc w'].
  destruct (Z.eqb rc 0); reflexivity.
Qed.

(** The deploy sequence of one node, step by step. *)
Lemma deploy_docker_image_steps (config : Config.t) (image_name bare : string)
      (tango_node : TangoNode.t) (w : World) :
  nth_error (str_split "/" image_name) 1 = Some bare ->
  let pull := "docker pull " ++ image_name in
  let tag := "docker tag " ++ image_name ++ " " ++ bare in
  let rm := "docker image rm " ++ image_name in
  let ssh := remote_argv config tango_node in
  let failed := command_failed (TangoNode.fqdn tango_node) in
  exists r w' t,
    deploy_docker_image config image_name tango_node w = (r, w', t) /\
    ((exists rc, rc <> 0%Z /\ r = Raise (failed pull rc) /\
                 spawned t = [(ssh pull, rc)]) \/
     (exists rc, rc <> 0%Z /\ r = Raise (failed tag rc) /\
                 spawned t = [(ssh pull, 0%Z); (ssh tag, rc)]) \/
     (exists rc, rc <> 0%Z /\ r = Raise (failed rm rc) /\
                 spawned t = [(ssh pull, 0%Z); (ssh tag, 0%Z); (ssh rm, rc)]) \/
     (r = Ok tt /\
      spawned t = [(ssh pull, 0%Z); (ssh tag, 0%Z); (ssh rm, 0%Z)])).
Proof.
  intros Hbare pull tag rm ssh failed.
  unfold deploy_docker_image, list_getitem. rewrite Hbare.
  unfold bind at 1. unfold print at 1. unfold bind at 1. unfold lift at 1.
  unfold bind at 1. rewrite run_command_on_tango_node_eq.
  fold pull ssh. destruct (spawn (ssh pull) w) as [rc1 w1].
  destruct (Z.eqb_spec rc1 0) as [->|Hrc1].
  2:{ do 3 eexists. split; [reflexivity|]. left. exists rc1. now repeat split. }
  unfold bind at 1. rewrite run_command_on_tango_node_eq.
  fold tag ssh. destruct (spawn (ssh tag) w1) as [rc2 w2].
  destruct (Z.eqb_spec rc2 0) as [->|Hrc2].
  2:{ do 3 eexists. split; [reflexivity|]. right; left. exists rc2.
      now repeat split. }
  unfold bind at 1. rewrite run_command_on_tango_node_eq.
  fold rm ssh. destruct (spawn (ssh rm) w2) as [rc3 w3].
  destruct (Z.eqb_spec rc3 0) as [->|Hrc3].
  2:{ do 3 eexists. split; [reflexivity|]. right; right; left. exists rc3.
      now repeat split. }
  do 3 eexists. split; [reflexivity|]. right; right; right. now split.
Qed.

(** When the sequence raises, either the image name had no "/" and no
    process was spawned, or the last process spawned is the remote
    command whose non-zero return code the exception reports. *)
Lemma deploy_docker_image_raises (config : Config.t) (image_name : string)
      (tango_node : TangoNode.t) (w w' : World) (e : exn) (t : list event) :
  deploy_docker_image config image_name tango_node w = (Raise e, w', t) ->
  (e = IndexError /\ spawned t = []) \/
  (exists command rc done,
      rc <> 0%Z /\
      e = command_failed (TangoNode.fqdn tango_node) command rc /\
      spawned t = (done ++ [(remote_argv config tango_node command, rc)])%list /\
      Forall (fun p => snd p = 0%Z) done).
Proof.
  intros Hrun.
  destruct (nth_error (str_split "/" image_name) 1) as [bare|] eqn:Hbare.
  - right.
    destruct (deploy_docker_image_steps config image_name bare tango_node w Hbare)
      as (r & w1 & t1 & Heq & Hcases).
    rewrite Hrun in Heq. injection Heq as <- <- <-.
    destruct Hcases as [(rc & Hrc & He & Ht)|[(rc & Hrc & He & Ht)|
                        [(rc & Hrc & He & Ht)|(He & _)]]];
      [| | |discriminate]; injection He as ->; rewrite Ht.
    + exists ("docker pull " ++ image_name), rc, []. repeat split; auto.
    + exists ("docker tag " ++ image_name ++ " " ++ bare), rc,
             [(remote_argv config tango_node ("docker pull " ++ image_name), 0%Z)].
      repeat split; auto.
    + exists ("docker image rm " ++ image_name), rc,
             [(remote_argv config tango_node ("docker pull " ++ image_name), 0%Z);
              (remote_argv config tango_node
                 ("docker tag " ++ image_name ++ " " ++ bare), 0%Z)].
      repeat split; auto.
  - left. unfold deploy_docker_image, list_getitem in Hrun. rewrite Hbare in Hrun.
    unfold_monad. unfold bind, print, lift in Hrun. simpl in Hrun.
    injection Hrun as <- _ <-. now split.
Qed.

(** ** The deploy sequence of one node *)


(** ** Deploying to a list of nodes *)

(** C1, as the code has it. When the nodes before [tango_node] in the
    resolved list deploy and the sequence of [tango_node] raises, [deploy]
    raises the same exception there: the run ends with the events of
    these nodes, nothing is spawned for the nodes after it, and a
    command failure names the node's fqdn, the command and its return
    code. *)
Theorem deploy_stops_at_first_failure (config : Config.t) (args : Namespace.t)
        (before after : list TangoNode.t) (tango_node : TangoNode.t)
        (w w1 w2 : World) (t1 t2 : list event) (e : exn) :
  node_list_to_nodes config (Namespace.tango_node args)
    = Ok (before ++ tango_node :: after)%list ->
  for_each before (deploy_docker_image config (Namespace.image_name args)) w
    = (Ok tt, w1, t1) ->
  deploy_docker_image config (Namespace.image_name args) tango_node w1
    = (Raise e, w2, t2) ->
  deploy config args w = (Raise e, w2, (t1 ++ t2)%list) /\
  (e = IndexError \/
   exists command rc done,
     rc <> 0%Z /\
     e = command_failed (TangoNode.fqdn tango_node) command rc /\
     spawned (t1 ++ t2) =
       (spawned t1 ++ done ++ [(remote_argv config tango_node command, rc)])%list).
Proof.
  intros Hnodes Hbefore Hnode. split.
  - unfold deploy. unfold bind at 1. unfold lift. rewrite Hnodes.
    pose proof (for_each_raise _ _ after _ _ _ _ _ _ _ Hbefore Hnode) as Hloop.
    change (for_each (before ++ tango_node :: after)
              (fun node => deploy_docker_image config
                             (Namespace.image_name args) node) w
            = (Raise e, w2, (t1 ++ t2)%list)) in Hloop.
    now rewrite Hloop.
  - destruct (deploy_docker_image_raises _ _ _ _ _ _ _ Hnode)
      as [[-> _]|(command & rc & done & Hrc & -> & Ht2 & _)]; [now left|].
    right. exists command, rc, done. repeat split; trivial.
    now rewrite spawned_app, Ht2.
Qed.

(** C2. A selector other than "all" that holds a name the configuration
    does not have makes the resolution raise [KeyError] for the first
    such name: no node list is returned, and [deploy] (and so [main])
    raise it with the world untouched and no event, so no remote
    command was run. *)
Theorem unknown_node_fails_fast (config : Config.t) (args : Namespace.t)
        (w : World) :
  Namespace.tango_node args <> "all" ->
  Exists (fun name => dict_get (Config.tango_nodes config) name = None)
         (str_split "," (Namespace.tango_node args)) ->
  exists known name rest,
    str_split "," (Namespace.tango_node args) = (known ++ name :: rest)%list /\
    Forall (fun k => dict_get (Config.tango_nodes config) k <> None) known /\
    dict_get (Config.tango_nodes config) name = None /\
    node_list_to_nodes config (Namespace.tango_node args) = Raise (KeyError name) /\
    deploy config args w = (Raise (KeyError name), w, []) /\
    (Namespace.command args = deploy_cmd ->
     main config args w = (Raise (KeyError name), w, [])).
Proof.
  intros Hall Hex.
  destruct (list_comprehension_unknown config _ Hex)
    as (known & name & rest & Hsplit & Hknown & Hname & Hraise).
  assert (Hres : forall config',
             Config.tango_nodes config' = Config.tango_nodes config ->
             node_list_to_nodes config' (Namespace.tango_node args)
             = Raise (KeyError name)).
  { intros config' Hsame. unfold node_list_to_nodes.
    destruct (String.eqb_spec (Namespace.tango_node args) "all");
      [contradiction|].
    rewrite <- Hraise. unfold get_tango_node. now rewrite Hsame. }
  assert (Hdeploy : forall config',
             Config.tango_nodes config' = Config.tango_nodes config ->
             deploy config' args w = (Raise (KeyError name), w, [])).
  { intros config' Hsame. unfold deploy, bind, lift.
    now rewrite (Hres config' Hsame). }
  exists known, name, rest. repeat split; auto.
  intros Hcmd. unfold main. rewrite Hcmd. now apply Hdeploy.
Qed.

(** ** Credentials *)

Lemma if_else_some (s other : string) :
  s <> "" -> if_else (Some s) other = s.
Proof. destruct s; [congruence|reflexivity]. Qed.




(** ** Building *)

(** C9. When the bare image name holds a "/", [build] (and so [main] in
    build mode) raises [AssertionError] with the world untouched and no
    event: [docker build] was not run. *)
Theorem build_rejects_slash (config : Config.t) (args : Namespace.t)
        (w : World) :
  str_contains "/" (Namespace.image_name args) = true ->
  exists msg,
    build config args w = (Raise (AssertionError msg), w, []) /\
    (Namespace.command args = build_cmd ->
     main config args w = (Raise (AssertionError msg), w, [])).
Proof.
  intros Hslash. eexists. split.
  - unfold build, bind, assert. rewrite Hslash. reflexivity.
  - intros Hcmd. unfold main. rewrite Hcmd.
    unfold build, bind, assert. rewrite Hslash. reflexivity.
Qed.

Lemma str_contains_qualified (org name : string) :
  str_contains ":" (org ++ "/" ++ name)
  = str_contains ":" org || str_contains ":" name.
Proof. now rewrite str_contains_app. Qed.

Lemma str_count_qualified (org name : string) :
  Nat.eqb (str_count "/" (org ++ "/" ++ name)) 1
  = negb (str_contains "/" org) && negb (str_contains "/" name).
Proof.
  rewrite str_count_app. simpl str_count.
  pose proof (str_count_0 "/" org) as Horg.
  pose proof (str_count_0 "/" name) as Hname.
  destruct (str_contains "/" org), (str_contains "/" name); simpl.
  - apply Nat.eqb_neq. lia.
  - apply Nat.eqb_neq. intros H.
    assert (H0 : str_count "/" org = 0) by lia.
    apply Horg in H0. discriminate.
  - apply Nat.eqb_neq. intros H.
    assert (H0 : str_count "/" name = 0) by lia.
    apply Hname in H0. discriminate.
  - apply Nat.eqb_eq.
    destruct Horg as [_ Horg], Hname as [_ Hname].
    rewrite (Horg eq_refl), (Hname eq_refl). reflexivity.
Qed.

(** X1. The exit code of build mode is 1 when the bare image name or the
    organization holds a "/" or a ":", and 0 otherwise: the return codes
    of [docker build] and [docker tag] are not looked at. *)
Theorem build_exit_code (config : Config.t) (args : Namespace.t) (w : World) :
  Namespace.command args = build_cmd ->
  let org := Config.docker_hub_org (parse_args_to_config config args) in
  let name := Namespace.image_name args in
  exit_code config args w =
  if str_contains "/" name || str_contains "/" org
     || str_contains ":" org || str_contains ":" name
  then 1%Z else 0%Z.
Proof.
  intros Hcmd org name.
  unfold exit_code, main. rewrite Hcmd.
  unfold build, build_docker_image_from_dockerfile, get_date_time_stamp.
  fold org. fold name. unfold_monad.
  rewrite str_contains_qualified, str_count_qualified.
  destruct (str_contains "/" name); [reflexivity|].
  destruct (str_contains "/" org); [now destruct (str_contains ":" org || _)|].
  destruct (str_contains ":" org); [reflexivity|].
  destruct (str_contains ":" name); [reflexivity|].
  simpl.
  destruct (spawn _ w) as [rc1 w1].
  destruct (spawn _ w1) as [rc2 w2].
  reflexivity.
Qed.

End Properties.

(** ** The two tags of a build

    What [docker build -t] and [docker tag] do to the local image store is
    a contract of the host: [image_of w ref] is the image [ref] names in
    world [w]; a build that returns 0 leaves its tag naming an image, and
    a tag that returns 0 makes the new reference name the image of the
    old one, which keeps naming it. *)

Section Docker.
Context {host : Host}.
Variable image_of : World -> string -> option nat.

Hypothesis docker_build_binds :
  forall (ref dockerfile : string) (w w' : World),
    spawn ["docker"; "build"; "-t"; ref; dockerfile] w = (0%Z, w') ->
    image_of w' ref <> None.

Hypothesis docker_tag_aliases :
  forall (src dst : string) (w w' : World),
    spawn ["docker"; "tag"; src; dst] w = (0%Z, w') ->
    image_of w' dst = image_of w src /\ image_of w' src = image_of w src.

(** C8. A build in which [build] returns and both docker processes
    return 0, started at a date and time the clock gives, returns
    [org/name:latest].  It has run [docker build -t org/name:<stamp>] and
    then, in the world this left, [docker tag org/name:<stamp>
    org/name:latest]; [<stamp>] has the format YYYY.MM.DD.HHMMSS and read
    back it is the wall clock at the start.  The stamped reference is a
    different reference, which names the same image as the latest one. *)
Theorem build_latest_and_timestamp (config : Config.t) (args : Namespace.t)
        (w w' : World) (latest : string) (t : list event) :
  build config args w = (Ok latest, w', t) ->
  Forall (fun p => snd p = 0%Z) (spawned t) ->
  valid_datetime (clock w) ->
  let name := Config.docker_hub_org config ++ "/" ++ Namespace.image_name args in
  exists stamp w1,
    let stamped := name ++ ":" ++ stamp in
    let build_argv :=
      ["docker"; "build"; "-t"; stamped; Namespace.dockerfile args] in
    let tag_argv := ["docker"; "tag"; stamped; latest] in
    latest = name ++ ":latest" /\
    has_format "YYYY.MM.DD.HHMMSS" stamp = true /\
    parse_timestamp stamp = Some (clock w) /\
    stamped <> latest /\
    spawn build_argv w = (0%Z, w1) /\
    spawn tag_argv w1 = (0%Z, w') /\
    t = [Spawned build_argv 0; Spawned tag_argv 0] /\
    image_of w' stamped = image_of w' latest /\
    image_of w' latest <> None.
Proof.
  intros Hbuild Hzero Hvalid name.
  unfold build, build_docker_image_from_dockerfile, get_date_time_stamp in Hbuild.
  fold name in Hbuild. unfold_monad. unfold bind, assert, ret, raise in Hbuild.
  unfold subprocess_run, datetime_now in Hbuild.
  destruct (str_contains "/" (Namespace.image_name args)); [discriminate|].
  destruct (str_contains ":" name); [discriminate|].
  destruct (Nat.eqb (str_count "/" name) 1); [|discriminate].
  simpl in Hbuild.
  destruct (spawn _ w) as [rc1 w1] eqn:Hrun1.
  destruct (spawn _ w1) as [rc2 w2] eqn:Hrun2.
  injection Hbuild as <- <- <-.
  simpl in Hzero.
  inversion Hzero as [|? ? Hrc1 Hzero']; subst. simpl in Hrc1. subst rc1.
  inversion Hzero' as [|? ? Hrc2 _]; subst. simpl in Hrc2. subst rc2.
  destruct (docker_tag_aliases _ _ _ _ Hrun2) as [Hdst Hsrc].
  pose proof (docker_build_binds _ _ _ _ Hrun1) as Hbound.
  exists (strftime (clock w)), w1. cbv zeta.
  change (":" ++ strftime (clock w)) with (String ":" (strftime (clock w))).
  split; [reflexivity|].
  split; [now apply strftime_format|].
  split; [now apply parse_timestamp_strftime|].
  split.
  { intros Heq. apply append_inj_l in Heq.
    injection Heq as Heq. exact (strftime_not_latest _ Heq). }
  split; [exact Hrun1|]. split; [exact Hrun2|]. split; [reflexivity|].
  split; [now rewrite Hdst, Hsrc|now rewrite Hdst].
Qed.

End Docker.

(** ** The program on the scripted host *)

Lemma scripted_docker_build (ref dockerfile : string) (w w' : Scripted) :
  scripted_spawn ["docker"; "build"; "-t"; ref; dockerfile] w = (0%Z, w') ->
  scripted_image_of w' ref <> None.
Proof.
  unfold scripted_spawn, scripted_image_of.
  destruct (Z.eqb_spec (hd 0%Z (returncodes w)) 0) as [_|Hforced]; simpl.
  - intros H. injection H as <-. simpl. rewrite String.eqb_refl. discriminate.
  - intros H. injection H as H _. contradiction.
Qed.

Lemma scripted_docker_tag (src dst : string) (w w' : Scripted) :
  scripted_spawn ["docker"; "tag"; src; dst] w = (0%Z, w') ->
  scripted_image_of w' dst = scripted_image_of w src /\
  scripted_image_of w' src = scripted_image_of w src.
Proof.
  unfold scripted_spawn, scripted_image_of.
  destruct (Z.eqb_spec (hd 0%Z (returncodes w)) 0) as [_|Hforced]; simpl.
  - destruct (dict_get (images w) src) as [id|] eqn:Hsrc; [|discriminate].
    intros H. injection H as <-. simpl. rewrite String.eqb_refl.
    split; [reflexivity|].
    destruct (String.eqb dst src); [reflexivity|assumption].
  - intros H. injection H as H _. contradiction.
Qed.

Lemma build_latest_and_timestamp_witness :
  let run := build (host := scripted) sample_config (build_args "svc") (script []) in
  exists stamp,
    parse_timestamp stamp = Some noon /\
    "acme/svc:" ++ stamp <> "acme/svc:latest" /\
    snd run
    = [Spawned ["docker"; "build"; "-t"; "acme/svc:" ++ stamp; "./svc"] 0;
       Spawned ["docker"; "tag"; "acme/svc:" ++ stamp; "acme/svc:latest"] 0] /\
    scripted_image_of (snd (fst run)) ("acme/svc:" ++ stamp)
    = scripted_image_of (snd (fst run)) "acme/svc:latest" /\
    scripted_image_of (snd (fst run)) "acme/svc:latest" <> None.
Proof.
  intros run.
  assert (Hzero : Forall (fun p => snd p = 0%Z) (spawned (snd run)))
    by (vm_compute; repeat constructor).
  assert (Hvalid : valid_datetime noon)
    by (unfold valid_datetime; simpl; lia).
  destruct (@build_latest_and_timestamp scripted scripted_image_of
              scripted_docker_build scripted_docker_tag
              sample_config (build_args "svc") (script [])
              (snd (fst run)) "acme/svc:latest" (snd run) eq_refl Hzero Hvalid)
    as (stamp & w1 & _ & _ & Hparse & Hne & _ & _ & Ht & Halias & Hbound).
  exists stamp.
  split; [exact Hparse|]. split; [exact Hne|]. split; [exact Ht|].
  split; [exact Halias|exact Hbound].
Defined.


Lemma deploy_stops_at_first_failure_witness :
  fst (fst (deploy (host := scripted) sample_config
                   (deploy_args "acme/svc:latest" "all")
                   (script [0; 0; 0; 0; 1]%Z)))
  = Raise (command_failed "b.example.org"
                          "docker tag acme/svc:latest svc:latest" 1).
Proof.
  set (args := deploy_args "acme/svc:latest" "all").
  set (w := script [0; 0; 0; 0; 1]%Z).
  set (first := for_each (host := scripted) [node_a]
                  (deploy_docker_image sample_config "acme/svc:latest") w).
  set (second := deploy_docker_image (host := scripted) sample_config
                   "acme/svc:latest" node_b (snd (fst first))).
  destruct (@deploy_stops_at_first_failure scripted sample_config args
              [node_a] [node_c] node_b w (snd (fst first)) (snd (fst second))
              (snd first) (snd second)
              (command_failed "b.example.org"
                              "docker tag acme/svc:latest svc:latest" 1)
              eq_refl eq_refl eq_refl) as [Hrun _].
  rewrite Hrun. reflexivity.
Defined.

(** C1 fails on the code: with two nodes selected and the pull failing on
    the first, the run raises there; the only process spawned is that
    pull, and nothing is run on the second node. *)
Lemma deploy_abandons_later_nodes :
  let run := deploy (host := scripted) sample_config
                    (deploy_args "acme/svc:latest" "nodeA,nodeB")
                    (script [1]%Z) in
  node_list_to_nodes sample_config "nodeA,nodeB" = Ok [node_a; node_b] /\
  fst (fst run) = Raise (command_failed "a.example.org"
                                        "docker pull acme/svc:latest" 1) /\
  argvs (snd run) = [remote_argv sample_config node_a "docker pull acme/svc:latest"] /\
  ~ In (remote_argv sample_config node_b "docker pull acme/svc:latest")
       (argvs (snd run)).
Proof.
  repeat split.
  vm_compute. intros [H|[]]. discriminate H.
Qed.

Lemma unknown_node_fails_fast_witness :
  exists name,
    deploy (host := scripted) sample_config
           (deploy_args "acme/svc:latest" "nodeA,nodeZ") (script [])
    = (Raise (KeyError name), script [], []).
Proof.
  assert (Hex : Exists (fun name => dict_get (Config.tango_nodes sample_config) name = None)
                       (str_split "," "nodeA,nodeZ"))
    by (apply Exists_cons_tl, Exists_cons_hd; reflexivity).
  assert (Hall : "nodeA,nodeZ" <> "all") by discriminate.
  destruct (@unknown_node_fails_fast scripted sample_config
              (deploy_args "acme/svc:latest" "nodeA,nodeZ") (script []) Hall Hex)
    as (_ & name & _ & _ & _ & _ & _ & Hdeploy & _).
  exists name. exact Hdeploy.
Defined.




Lemma build_rejects_slash_witness :
  exists msg,
    build (host := scripted) sample_config (build_args "myorg/myimage") (script [])
    = (Raise (AssertionError msg), script [], []).
Proof.
  destruct (@build_rejects_slash scripted sample_config
              (build_args "myorg/myimage") (script []) eq_refl)
    as (msg & Hbuild & _).
  exists msg. exact Hbuild.
Defined.

Lemma build_exit_code_witness :
  exit_code (host := scripted) sample_config (build_args "myorg/myimage")
            (script []) = 1%Z /\
  exit_code (host := scripted) sample_config (build_args "svc") (script []) = 0%Z.
Proof.
  split.
  - exact (@build_exit_code scripted sample_config (build_args "myorg/myimage")
             (script []) eq_refl).
  - exact (@build_exit_code scripted sample_config (build_args "svc")
             (script []) eq_refl).
Defined.

(** C3 does not hold of the code: the name checks pass, [docker build]
    returns 1 (and so does [docker tag], its source missing), [main]
    returns all the same and the exit code is 0. *)
Lemma failed_build_exits_zero :
  let w := script [1]%Z in
  spawned (snd (main (host := scripted) sample_config (build_args "svc") w))
  = [(["docker"; "build"; "-t"; "acme/svc:2024.03.05.120009"; "./svc"], 1%Z);
     (["docker"; "tag"; "acme/svc:2024.03.05.120009"; "acme/svc:latest"], 1%Z)] /\
  exit_code (host := scripted) sample_config (build_args "svc") w = 0%Z.
Proof.
  split; reflexivity.
Qed.

(** * Further properties of the program *)

Section Further.
Context {host : Host}.

(** ** Loops *)

(** A loop that raises does so at one element, after the body has
    returned on every element before it. *)
Lemma for_each_raises {A} (body : A -> M unit) (l : list A)
      (w w' : World) (t : list event) (e : exn) :
  for_each l body w = (Raise e, w', t) ->
  exists before x after w1 t1 t2,
    l = (before ++ x :: after)%list /\
    for_each before body w = (Ok tt, w1, t1) /\
    body x w1 = (Raise e, w', t2) /\
    t = (t1 ++ t2)%list.
Proof.
  revert w t.
  induction l as [|a l IH]; simpl; intros w t Hrun; [discriminate|].
  unfold bind in Hrun.
  destruct (body a w) as [[[[]|ea] wa] ta] eqn:Ha.
  - destruct (for_each l body wa) as [[r wl] tl] eqn:Hl.
    injection Hrun as -> -> <-.
    destruct (IH wa tl Hl)
      as (before & x & after & w1 & t1 & t2 & -> & Hbefore & Hx & ->).
    exists (a :: before), x, after, w1, (ta ++ t1)%list, t2.
    repeat split; trivial.
    + simpl. unfold bind. now rewrite Ha, Hbefore.
    + now rewrite app_assoc.
  - injection Hrun as <- <- <-.
    exists [], a, l, w, [], ta. repeat split; trivial.
Qed.


(** ** One node *)

Lemma deploy_docker_image_index_error (config : Config.t) (image_name : string)
      (tango_node : TangoNode.t) (w : World) :
  nth_error (str_split "/" image_name) 1 = None ->
  deploy_docker_image config image_name tango_node w
  = (Raise IndexError, w,
     [Printed ("Deploying image " ++ image_name ++ " to " ++
               TangoNode.fqdn tango_node ++ "...")]).
Proof.
  intros Hnone. unfold deploy_docker_image, list_getitem. rewrite Hnone.
  reflexivity.
Qed.


(** ** Splitting *)

Lemma str_split_length (c : ascii) (s : string) :
  List.length (str_split c s) = S (str_count c s).
Proof.
  induction s as [|x s IH]; simpl; [reflexivity|].
  destruct (Ascii.eqb x c); simpl; [now rewrite IH|].
  pose proof (str_split_not_nil c s) as Hnil.
  destruct (str_split c s) as [|tok toks]; [contradiction|exact IH].
Qed.

Lemma str_split_second (c : ascii) (s : string) :
  nth_error (str_split c s) 1 = None <-> str_contains c s = false.
Proof.
  rewrite nth_error_None, str_split_length, <- str_count_0. lia.
Qed.

(** ** Deploying: how a run ends *)

(** X3. An image name without "/" makes the first node's sequence raise
    [IndexError] right after its progress line: no process is spawned. *)
Theorem deploy_image_without_slash (config : Config.t) (args : Namespace.t)
        (tango_node : TangoNode.t) (rest : list TangoNode.t) (w : World) :
  str_contains "/" (Namespace.image_name args) = false ->
  node_list_to_nodes config (Namespace.tango_node args) = Ok (tango_node :: rest) ->
  deploy config args w
  = (Raise IndexError, w,
     [Printed ("Deploying image " ++ Namespace.image_name args ++ " to " ++
               TangoNode.fqdn tango_node ++ "...")]).
Proof.
  intros Hslash Hnodes.
  unfold deploy. unfold bind at 1. unfold lift. rewrite Hnodes.
  simpl for_each. unfold bind at 1.
  rewrite deploy_docker_image_index_error by now apply str_split_second.
  reflexivity.
Qed.



Lemma list_comprehension_raises (config : Config.t) (names : list string)
      (e : exn) :
  list_comprehension (get_tango_node config) names = Raise e ->
  exists name,
    e = KeyError name /\ In name names /\
    dict_get (Config.tango_nodes config) name = None.
Proof.
  induction names as [|x names IH]; simpl; [discriminate|].
  unfold get_tango_node at 1, dict_getitem.
  destruct (dict_get (Config.tango_nodes config) x) eqn:Hx; simpl.
  - destruct (list_comprehension (get_tango_node config) names) as [ys|e'];
      simpl; [discriminate|].
    intros H. injection H as ->.
    destruct (IH eq_refl) as (name & -> & Hin & Hname).
    exists name. auto.
  - intros H. injection H as <-. exists x. auto.
Qed.

(** X6. When [deploy] raises, it is for one of three reasons: a name of the
    selector is not in the configuration ([KeyError], nothing was run);
    the image name has no "/" ([IndexError], no process was spawned); or
    a remote command returned a non-zero code on a node of the list, in
    which case it is the last process spawned and the exception names
    the node, the command and the code. *)
Theorem deploy_raises (config : Config.t) (args : Namespace.t)
        (w w' : World) (t : list event) (e : exn) :
  deploy config args w = (Raise e, w', t) ->
  (exists name,
      e = KeyError name /\
      dict_get (Config.tango_nodes config) name = None /\
      w' = w /\ t = []) \/
  (e = IndexError /\
   str_contains "/" (Namespace.image_name args) = false /\
   w' = w /\ spawned t = []) \/
  (exists nodes tango_node command rc done,
      node_list_to_nodes config (Namespace.tango_node args) = Ok nodes /\
      In tango_node nodes /\
      rc <> 0%Z /\
      e = command_failed (TangoNode.fqdn tango_node) command rc /\
      spawned t = (done ++ [(remote_argv config tango_node command, rc)])%list).
Proof.
  unfold deploy. unfold bind at 1. unfold lift.
  destruct (node_list_to_nodes config (Namespace.tango_node args))
    as [nodes|e'] eqn:Hnodes.
  - destruct (for_each nodes _ w) as [[r wl] tl] eqn:Hloop.
    intros Hrun. injection Hrun as -> -> <-. simpl.
    destruct (for_each_raises _ _ _ _ _ _ Hloop)
      as (before & x & after & w1 & t1 & t2 & Hsplit & Hbefore & Hx & ->).
    destruct (deploy_docker_image_raises _ _ _ _ _ _ _ Hx)
      as [[-> Ht2]|(command & rc & done & Hrc & -> & Ht2 & _)].
    + right; left.
      assert (Hnone : nth_error (str_split "/" (Namespace.image_name args)) 1 = None).
      { destruct (nth_error (str_split "/" (Namespace.image_name args)) 1)
          as [bare|] eqn:Hbare; [|reflexivity].
        destruct (deploy_docker_image_steps config _ bare x w1 Hbare)
          as (r & w2 & t3 & Heq & Hcases).
        rewrite Hx in Heq. injection Heq as <- <- <-.
        destruct Hcases as [(rc & _ & He & _)|[(rc & _ & He & _)|
                            [(rc & _ & He & _)|(He & _)]]]; discriminate. }
      destruct before as [|b before].
      * simpl in Hbefore. injection Hbefore as <- <-.
        rewrite (deploy_docker_image_index_error _ _ _ _ Hnone) in Hx.
        injection Hx as <- <-.
        repeat split; trivial. now apply str_split_second.
      * simpl in Hbefore. unfold bind in Hbefore.
        rewrite (deploy_docker_image_index_error _ _ _ _ Hnone) in Hbefore.
        discriminate.
    + right; right.
      exists nodes, x, command, rc, (spawned t1 ++ done)%list.
      repeat split; trivial.
      * rewrite Hsplit. apply in_or_app. right. now left.
      * rewrite spawned_app, Ht2. now rewrite app_assoc.
  - intros Hrun. injection Hrun as -> <- <-. left.
    unfold node_list_to_nodes in Hnodes.
    destruct (String.eqb (Namespace.tango_node args) "all"); [discriminate|].
    destruct (list_comprehension_raises _ _ _ Hnodes) as (name & -> & _ & Hname).
    exists name. auto.
Qed.

(** ** Building *)

Lemma str_append_assoc (a b c : string) : (a ++ b) ++ c = a ++ b ++ c.
Proof.
  induction a as [|x a IH]; simpl; [reflexivity|now rewrite IH].
Qed.

Lemma build_checks_pass (config : Config.t) (args : Namespace.t) (w : World) :
  name_checks_fail (Config.docker_hub_org config) (Namespace.image_name args)
  = false ->
  let image_name :=
    Config.docker_hub_org config ++ "/" ++ Namespace.image_name args in
  let stamped := image_name ++ ":" ++ strftime (clock w) in
  let latest := image_name ++ ":latest" in
  let build_argv := ["docker"; "build"; "-t"; stamped; Namespace.dockerfile args] in
  let tag_argv := ["docker"; "tag"; stamped; latest] in
  build config args w =
  (let (rc1, w1) := spawn build_argv w in
   let (rc2, w2) := spawn tag_argv w1 in
   (Ok latest, w2, [Spawned build_argv rc1; Spawned tag_argv rc2])).
Proof.
  intros Hchecks image_name stamped latest build_argv tag_argv.
  unfold name_checks_fail in Hchecks.
  apply orb_false_elim in Hchecks as [Hchecks Hcolon_name].
  apply orb_false_elim in Hchecks as [Hchecks Hcolon_org].
  apply orb_false_elim in Hchecks as [Hslash_name Hslash_org].
  unfold build, build_docker_image_from_dockerfile, get_date_time_stamp.
  fold image_name. unfold_monad.
  rewrite Hslash_name.
  unfold image_name at 1 2.
  rewrite str_contains_qualified, str_count_qualified.
  rewrite Hcolon_org, Hcolon_name, Hslash_org, Hslash_name. simpl.
  change (image_name ++ String ":" (strftime (clock w))) with stamped.
  fold latest. fold build_argv. fold tag_argv.
  destruct (spawn build_argv w) as [rc1 w1].
  destruct (spawn tag_argv w1) as [rc2 w2]. reflexivity.
Qed.

Lemma build_checks_fail (config : Config.t) (args : Namespace.t) (w : World) :
  name_checks_fail (Config.docker_hub_org config) (Namespace.image_name args)
  = true ->
  exists msg, build config args w = (Raise (AssertionError msg), w, []).
Proof.
  unfold name_checks_fail. intros Hchecks.
  unfold build, build_docker_image_from_dockerfile. unfold_monad.
  destruct (str_contains "/" (Namespace.image_name args)) eqn:Hslash_name;
    [eexists; reflexivity|].
  rewrite str_contains_qualified, str_count_qualified, Hslash_name.
  simpl in Hchecks.
  destruct (str_contains ":" (Config.docker_hub_org config)),
    (str_contains ":" (Namespace.image_name args));
    simpl; try (eexists; reflexivity).
  destruct (str_contains "/" (Config.docker_hub_org config));
    [eexists; reflexivity|discriminate].
Qed.

(** X2. [build] ends in one of two ways.  When the name or the organization
    holds a "/" or a ":", it raises [AssertionError] and nothing has been
    run.  Otherwise it spawns [docker build -t org/name:<stamp>] and then
    [docker tag org/name:<stamp> org/name:latest], whatever the first
    returned, and returns [org/name:latest], whatever they returned. *)
Theorem build_outcomes (config : Config.t) (args : Namespace.t) (w : World) :
  let image_name :=
    Config.docker_hub_org config ++ "/" ++ Namespace.image_name args in
  let stamped := image_name ++ ":" ++ strftime (clock w) in
  let latest := image_name ++ ":latest" in
  if name_checks_fail (Config.docker_hub_org config) (Namespace.image_name args)
  then exists msg, build config args w = (Raise (AssertionError msg), w, [])
  else exists rc1 rc2 w',
      build config args w =
      (Ok latest, w',
       [Spawned ["docker"; "build"; "-t"; stamped; Namespace.dockerfile args] rc1;
        Spawned ["docker"; "tag"; stamped; latest] rc2]).
Proof.
  intros image_name stamped latest.
  destruct (name_checks_fail _ _) eqn:Hchecks.
  - now apply build_checks_fail.
  - rewrite (build_checks_pass _ _ w Hchecks).
    fold image_name. fold stamped. fold latest.
    destruct (spawn _ w) as [rc1 w1]. destruct (spawn _ w1) as [rc2 w2].
    now exists rc1, rc2, w2.
Qed.

(** ** All-in-one *)

(** The image [aio] deploys splits into the organization and
    [name:latest]: the nodes retag to [name:latest]. *)
Lemma latest_second_segment (org name : string) :
  name_checks_fail org name = false ->
  nth_error (str_split "/" ((org ++ "/" ++ name) ++ ":latest")) 1
  = Some (name ++ ":latest").
Proof.
  unfold name_checks_fail. intros Hchecks.
  apply orb_false_elim in Hchecks as [Hchecks _].
  apply orb_false_elim in Hchecks as [Hchecks _].
  apply orb_false_elim in Hchecks as [Hslash_name Hslash_org].
  rewrite str_append_assoc. simpl append.
  rewrite str_split_app by assumption.
  rewrite str_split_one; [reflexivity|].
  rewrite str_contains_app, Hslash_name. reflexivity.
Qed.

(** With names that pass the checks, [aio] is some local processes
    followed by the deploy loop over every node. *)
Lemma aio_checks_pass (config : Config.t) (args : Namespace.t) (w : World) :
  name_checks_fail (Config.docker_hub_org config) (Namespace.image_name args)
  = false ->
  exists e1 e2 e3 w3 r w' t,
    for_each (dict_values (Config.tango_nodes config))
             (deploy_docker_image config
                ((Config.docker_hub_org config ++ "/" ++ Namespace.image_name args)
                 ++ ":latest")) w3 = (r, w', t) /\
    aio config args w = (r, w', ([e1; e2; e3] ++ t)%list).
Proof.
  intros Hchecks.
  unfold aio. unfold bind at 1. rewrite (build_checks_pass _ _ w Hchecks).
  destruct (spawn _ w) as [rc1 w1]. destruct (spawn _ w1) as [rc2 w2].
  unfold push_docker_image. unfold_monad.
  destruct (spawn _ w2) as [rc3 w3]. simpl.
  destruct (for_each _ _ w3) as [[r w'] t] eqn:Hloop.
  eexists _, _, _, w3, r, w', t. split; [exact Hloop|reflexivity].
Qed.

(** X7. With names that pass the checks, [aio] spawns [docker build],
    [docker tag] and [docker push org/name:latest], and then runs the
    deploy loop over every node of the configuration, in the mapping's
    order, from the world these three left: none of their return codes
    is looked at, and the run ends as the loop ends. *)
Theorem aio_steps (config : Config.t) (args : Namespace.t) (w : World) :
  name_checks_fail (Config.docker_hub_org config) (Namespace.image_name args)
  = false ->
  let image_name :=
    Config.docker_hub_org config ++ "/" ++ Namespace.image_name args in
  let stamped := image_name ++ ":" ++ strftime (clock w) in
  let latest := image_name ++ ":latest" in
  exists rc1 rc2 rc3 w3 r w' t,
    for_each (dict_values (Config.tango_nodes config))
             (deploy_docker_image config latest) w3 = (r, w', t) /\
    aio config args w =
    (r, w',
     ([Spawned ["docker"; "build"; "-t"; stamped; Namespace.dockerfile args] rc1;
       Spawned ["docker"; "tag"; stamped; latest] rc2;
       Spawned ["docker"; "push"; latest] rc3] ++ t)%list).
Proof.
  intros Hchecks image_name stamped latest.
  unfold aio. unfold bind at 1. rewrite (build_checks_pass _ _ w Hchecks).
  fold image_name. fold stamped. fold latest.
  destruct (spawn _ w) as [rc1 w1]. destruct (spawn _ w1) as [rc2 w2].
  unfold push_docker_image. unfold_monad.
  destruct (spawn _ w2) as [rc3 w3]. simpl.
  destruct (for_each _ _ w3) as [[r w'] t] eqn:Hloop.
  exists rc1, rc2, rc3, w3, r, w', t. split; [exact Hloop|reflexivity].
Qed.


(** X9. When [aio] raises, either the names failed the checks
    ([AssertionError], nothing was run), or a remote command returned a
    non-zero code on a node of the configuration: [aio] raises neither
    [KeyError] nor [IndexError], and no exception for a local docker
    process. *)
Theorem aio_raises (config : Config.t) (args : Namespace.t)
        (w w' : World) (t : list event) (e : exn) :
  aio config args w = (Raise e, w', t) ->
  (exists msg,
      e = AssertionError msg /\ w' = w /\ t = [] /\
      name_checks_fail (Config.docker_hub_org config)
                       (Namespace.image_name args) = true) \/
  (exists tango_node command rc done,
      In tango_node (dict_values (Config.tango_nodes config)) /\
      rc <> 0%Z /\
      e = command_failed (TangoNode.fqdn tango_node) command rc /\
      spawned t = (done ++ [(remote_argv config tango_node command, rc)])%list).
Proof.
  intros Hrun.
  destruct (name_checks_fail (Config.docker_hub_org config)
                             (Namespace.image_name args)) eqn:Hchecks.
  - left. destruct (build_checks_fail _ _ w Hchecks) as (msg & Hbuild).
    unfold aio in Hrun. unfold bind at 1 in Hrun. rewrite Hbuild in Hrun.
    injection Hrun as <- <- <-. exists msg. auto.
  - right.
    destruct (aio_checks_pass config args w Hchecks)
      as (e1 & e2 & e3 & w3 & r & wl & tl & Hloop & Haio).
    rewrite Hrun in Haio. injection Haio as <- <- ->.
    destruct (for_each_raises _ _ _ _ _ _ Hloop)
      as (before & x & after & w1 & t1 & t2 & Hsplit & _ & Hx & ->).
    destruct (deploy_docker_image_raises _ _ _ _ _ _ _ Hx)
      as [[-> _]|(command & rc & done & Hrc & -> & Ht2 & _)].
    + exfalso.
      pose proof (latest_second_segment _ _ Hchecks) as Hsecond.
      destruct (deploy_docker_image_steps config _ _ x w1 Hsecond)
        as (r & w2 & t3 & Heq & Hcases).
      rewrite Hx in Heq. injection Heq as <- <- <-.
      destruct Hcases as [(rc & _ & He & _)|[(rc & _ & He & _)|
                          [(rc & _ & He & _)|(He & _)]]]; discriminate.
    + exists x, command, rc, (spawned [e1; e2; e3] ++ spawned t1 ++ done)%list.
      repeat split; trivial.
      * rewrite Hsplit. apply in_or_app. right. now left.
      * change (e1 :: e2 :: e3 :: t1 ++ t2)%list
          with ([e1; e2; e3] ++ t1 ++ t2)%list.
        rewrite !spawned_app, Ht2. now rewrite !app_assoc.
Qed.

(** ** Command-line options *)



(** X11. A non-empty [--org] replaces the organization of the configuration
    file in build mode: with names that pass the checks, the two docker
    processes are given [org/name:<stamp>] and [org/name:latest] for the
    option's [org]. *)
Theorem org_option_names_the_image (config : Config.t) (args : Namespace.t)
        (org : string) (w : World) :
  Namespace.command args = build_cmd ->
  Namespace.org args = Some org ->
  org <> "" ->
  name_checks_fail org (Namespace.image_name args) = false ->
  let image_name := org ++ "/" ++ Namespace.image_name args in
  let stamped := image_name ++ ":" ++ strftime (clock w) in
  argvs (snd (main config args w))
  = [["docker"; "build"; "-t"; stamped; Namespace.dockerfile args];
     ["docker"; "tag"; stamped; image_name ++ ":latest"]].
Proof.
  intros Hcmd Horg Hne Hchecks image_name stamped.
  unfold main. rewrite Hcmd. unfold bind at 1.
  assert (Heff : Config.docker_hub_org (parse_args_to_config config args) = org).
  { unfold parse_args_to_config. cbn [Config.docker_hub_org].
    rewrite Horg. now apply if_else_some. }
  rewrite build_checks_pass by now rewrite Heff.
  rewrite Heff. fold image_name. fold stamped.
  destruct (spawn _ w) as [rc1 w1]. destruct (spawn _ w1) as [rc2 w2].
  reflexivity.
Qed.

(** ** Selectors *)

Lemma str_split_join (c : ascii) (names : list string) :
  names <> [] ->
  Forall (fun name => str_contains c name = false) names ->
  str_split c (str_join c names) = names.
Proof.
  induction names as [|name names IH]; [congruence|].
  intros _ Hnames. inversion Hnames as [|? ? Hname Hrest]; subst.
  destruct names as [|name' names].
  - simpl. now apply str_split_one.
  - change (str_join c (name :: name' :: names))
      with (name ++ String c (str_join c (name' :: names))).
    rewrite str_split_app by assumption.
    rewrite IH; [reflexivity|discriminate|assumption].
Qed.

Lemma str_split_trailing (c : ascii) (s : string) :
  str_split c (s ++ String c "") = (str_split c s ++ [""])%list.
Proof.
  induction s as [|x s IH]; simpl.
  - now rewrite Ascii.eqb_refl.
  - destruct (Ascii.eqb x c); [now rewrite IH|].
    rewrite IH.
    pose proof (str_split_not_nil c s) as Hnil.
    destruct (str_split c s) as [|tok toks]; [contradiction|reflexivity].
Qed.

Lemma list_comprehension_returns {A B} (f : A -> Res B) (l : list A)
      (ys : list B) :
  list_comprehension f l = Ok ys -> Forall2 (fun x y => f x = Ok y) l ys.
Proof.
  revert ys. induction l as [|x l IH]; simpl; intros ys H.
  - injection H as <-. constructor.
  - destruct (f x) as [y|e] eqn:Hx; simpl in H; [|discriminate].
    destruct (list_comprehension f l) as [ys'|e]; simpl in H; [|discriminate].
    injection H as <-. constructor; [assumption|now apply IH].
Qed.

(** X12. To select some nodes, join their names with commas: when no name
    holds a comma, each names a node and the selector is not the word
    "all", it resolves to these nodes in this order. *)
Theorem selector_of_names (config : Config.t) (names : list string)
        (nodes : list TangoNode.t) :
  names <> [] ->
  Forall (fun name => str_contains "," name = false) names ->
  Forall2 (fun name node => get_tango_node config name = Ok node) names nodes ->
  str_join "," names <> "all" ->
  node_list_to_nodes config (str_join "," names) = Ok nodes.
Proof.
  intros Hnil Hcommas Hnodes Hall.
  unfold node_list_to_nodes.
  destruct (String.eqb_spec (str_join "," names) "all"); [contradiction|].
  rewrite str_split_join by assumption.
  now apply list_comprehension_ok.
Qed.

(** X13. When a selector other than "all" resolves, every one of its tokens
    names a node and the result has one node per token, in token order:
    one more node than the selector has commas, so never none. *)
Theorem resolved_selector (config : Config.t) (node_list : string)
        (nodes : list TangoNode.t) :
  node_list <> "all" ->
  node_list_to_nodes config node_list = Ok nodes ->
  Forall2 (fun name node => get_tango_node config name = Ok node)
          (str_split "," node_list) nodes /\
  List.length nodes = S (str_count "," node_list).
Proof.
  intros Hall. unfold node_list_to_nodes.
  destruct (String.eqb_spec node_list "all"); [contradiction|].
  intros Hres. apply list_comprehension_returns in Hres.
  split; [exact Hres|].
  rewrite <- (Forall2_length Hres). apply str_split_length.
Qed.

(** X14. An empty selector, and a selector that ends with a comma, do not
    resolve to a shorter list: they hold the empty name, and raise
    [KeyError] when no node has it. *)
Theorem selector_with_empty_name (config : Config.t) (node_list : string) :
  dict_get (Config.tango_nodes config) "" = None ->
  node_list = "" \/ (exists s, node_list = s ++ ",") ->
  exists name, node_list_to_nodes config node_list = Raise (KeyError name).
Proof.
  intros Hempty Hshape.
  assert (Hall : node_list <> "all").
  { destruct Hshape as [->|[s ->]]; [discriminate|].
    intros H. apply (f_equal (str_split ",")) in H.
    rewrite str_split_trailing in H.
    apply (f_equal (fun l => last l "x")) in H.
    rewrite last_last in H. discriminate. }
  assert (Hin : Exists (fun name => dict_get (Config.tango_nodes config) name = None)
                       (str_split "," node_list)).
  { apply Exists_exists. exists "". split; [|assumption].
    destruct Hshape as [->|[s ->]]; [now left|].
    rewrite str_split_trailing. apply in_or_app. right. now left. }
  destruct (list_comprehension_unknown config _ Hin)
    as (_ & name & _ & _ & _ & _ & Hraise).
  exists name. unfold node_list_to_nodes.
  destruct (String.eqb_spec node_list "all"); [contradiction|assumption].
Qed.

(** ** Time stamps *)

Lemma digit_compare (a b : Z) :
  Ascii.compare (digit a) (digit b) = (a mod 10 ?= b mod 10)%Z.
Proof.
  unfold Ascii.compare, digit.
  assert (Ha : (0 <= a mod 10 < 10)%Z) by (apply Z.mod_pos_bound; lia).
  assert (Hb : (0 <= b mod 10 < 10)%Z) by (apply Z.mod_pos_bound; lia).
  rewrite !N_ascii_embedding by lia.
  rewrite Z2N.inj_compare by lia.
  apply Z.add_compare_mono_l.
Qed.

Lemma lexicographic_digits (a b : Z) (rest : comparison) :
  (0 <= a < 100)%Z -> (0 <= b < 100)%Z ->
  lexicographic ((a / 10) mod 10 ?= (b / 10) mod 10)%Z
                (lexicographic (a mod 10 ?= b mod 10)%Z rest)
  = lexicographic (a ?= b)%Z rest.
Proof.
  intros Ha Hb.
  destruct (Z.compare_spec ((a / 10) mod 10) ((b / 10) mod 10)) as [H1|H1|H1];
    destruct (Z.compare_spec (a mod 10) (b mod 10)) as [H0|H0|H0];
    destruct (Z.compare_spec a b) as [H|H|H];
    simpl; try reflexivity; exfalso;
    Z.div_mod_to_equations; lia.
Qed.

Lemma compare_two_digits (a b : Z) (s1 s2 : string) :
  (0 <= a < 100)%Z -> (0 <= b < 100)%Z ->
  String.compare (zero_padded 2 a ++ s1) (zero_padded 2 b ++ s2)
  = lexicographic (a ?= b)%Z (String.compare s1 s2).
Proof.
  intros Ha Hb. cbn [zero_padded append String.compare].
  rewrite !digit_compare, <- lexicographic_digits by assumption.
  unfold lexicographic.
  destruct ((a / 10) mod 10 ?= (b / 10) mod 10)%Z; try reflexivity.
  destruct (a mod 10 ?= b mod 10)%Z; reflexivity.
Qed.

Lemma str_append_nil (s : string) : s ++ "" = s.
Proof. induction s as [|x s IH]; simpl; [reflexivity|now rewrite IH]. Qed.

Lemma compare_four_digits (a b : Z) (s1 s2 : string) :
  (0 <= a < 10000)%Z -> (0 <= b < 10000)%Z ->
  String.compare (zero_padded 4 a ++ s1) (zero_padded 4 b ++ s2)
  = lexicographic (a ?= b)%Z (String.compare s1 s2).
Proof.
  intros Ha Hb.
  change (zero_padded 4 a) with (zero_padded 2 (a / 10 / 10) ++ zero_padded 2 a).
  change (zero_padded 4 b) with (zero_padded 2 (b / 10 / 10) ++ zero_padded 2 b).
  rewrite !str_append_assoc.
  rewrite compare_two_digits by (Z.div_mod_to_equations; lia).
  cbn [zero_padded append String.compare]. rewrite !digit_compare.
  destruct (Z.compare_spec (a / 10 / 10) (b / 10 / 10)) as [H2|H2|H2];
    destruct (Z.compare_spec ((a / 10) mod 10) ((b / 10) mod 10)) as [H1|H1|H1];
    destruct (Z.compare_spec (a mod 10) (b mod 10)) as [H0|H0|H0];
    destruct (Z.compare_spec a b) as [H|H|H];
    simpl; try reflexivity; exfalso;
    Z.div_mod_to_equations; lia.
Qed.

(** X16. On the dates and times a clock gives, time stamps sort as the times
    do: comparing two stamps as strings gives the chronological order of
    their dates. *)
Theorem strftime_monotone (d1 d2 : datetime) :
  valid_datetime d1 -> valid_datetime d2 ->
  String.compare (strftime d1) (strftime d2) = datetime_compare d1 d2.
Proof.
  intros (Hy1 & Hmo1 & Hd1 & Hh1 & Hmi1 & Hs1) (Hy2 & Hmo2 & Hd2 & Hh2 & Hmi2 & Hs2).
  unfold strftime, datetime_compare.
  rewrite !year_digits_valid by lia.
  rewrite compare_four_digits by lia.
  change ("." ++ ?s) with (String "." s).
  cbn [String.compare]. change (Ascii.compare "." ".") with Eq. cbv iota.
  rewrite compare_two_digits by lia.
  cbn [append String.compare]. change (Ascii.compare "." ".") with Eq. cbv iota.
  rewrite compare_two_digits by lia.
  cbn [append String.compare]. change (Ascii.compare "." ".") with Eq. cbv iota.
  rewrite compare_two_digits by lia.
  rewrite compare_two_digits by lia.
  rewrite <- (str_append_nil (zero_padded 2 (second d1))).
  rewrite <- (str_append_nil (zero_padded 2 (second d2))).
  rewrite compare_two_digits by lia.
  simpl String.compare.
  now destruct (second d1 ?= second d2)%Z.
Qed.




(** ** The volumes path *)

Lemma dict_get_without_volumes (d : dict TangoNode.t) (key : string) :
  dict_get (map (fun kv => (fst kv, without_volumes_node (snd kv))) d) key
  = option_map without_volumes_node (dict_get d key).
Proof.
  induction d as [|[k v] d IH]; simpl; [reflexivity|].
  now destruct (String.eqb k key).
Qed.

Lemma get_tango_node_without_volumes (config : Config.t) (name : string) :
  get_tango_node (without_volumes config) name
  = match get_tango_node config name with
    | Ok node => Ok (without_volumes_node node)
    | Raise e => Raise e
    end.
Proof.
  unfold get_tango_node, dict_getitem.
  cbn [without_volumes Config.tango_nodes].
  rewrite dict_get_without_volumes.
  now destruct (dict_get (Config.tango_nodes config) name).
Qed.

Lemma list_comprehension_without_volumes (config : Config.t)
      (names : list string) :
  list_comprehension (get_tango_node (without_volumes config)) names
  = match list_comprehension (get_tango_node config) names with
    | Ok nodes => Ok (map without_volumes_node nodes)
    | Raise e => Raise e
    end.
Proof.
  induction names as [|name names IH]; simpl; [reflexivity|].
  rewrite get_tango_node_without_volumes.
  destruct (get_tango_node config name); simpl; [|reflexivity].
  rewrite IH.
  now destruct (list_comprehension (get_tango_node config) names).
Qed.

Lemma for_each_without_volumes (image_name : string) (config : Config.t)
      (nodes : list TangoNode.t) (w : World) :
  for_each (map without_volumes_node nodes)
           (fun node => deploy_docker_image (without_volumes config)
                          image_name node) w
  = for_each nodes (fun node => deploy_docker_image config image_name node) w.
Proof.
  revert w. induction nodes as [|node nodes IH]; intros w; simpl; [reflexivity|].
  unfold bind.
  change (deploy_docker_image (without_volumes config) image_name
                              (without_volumes_node node) w)
    with (deploy_docker_image config image_name node w).
  destruct (deploy_docker_image config image_name node w) as [[[[]|e] w1] t1];
    [|reflexivity].
  now rewrite IH.
Qed.

(** X18. No [volumes_path] is read: blanking the one of the configuration and
    the one of every node changes nothing of a run, in any mode. *)
Theorem volumes_path_is_not_read (config : Config.t) (args : Namespace.t)
        (w : World) :
  main (without_volumes config) args w = main config args w.
Proof.
  unfold main.
  change (parse_args_to_config (without_volumes config) args)
    with (without_volumes (parse_args_to_config config args)).
  generalize (parse_args_to_config config args). clear config. intros config.
  destruct (Namespace.command args).
  - reflexivity.
  - unfold deploy, bind, lift.
    unfold node_list_to_nodes.
    destruct (String.eqb (Namespace.tango_node args) "all").
    + cbn [without_volumes Config.tango_nodes]. unfold dict_values.
      rewrite map_map. cbn [snd].
      rewrite <- (map_map snd without_volumes_node).
      now rewrite for_each_without_volumes.
    + rewrite list_comprehension_without_volumes.
      destruct (list_comprehension (get_tango_node config) _) as [nodes|e];
        [|reflexivity].
      now rewrite for_each_without_volumes.
  - unfold aio, bind.
    change (build (without_volumes config) args w) with (build config args w).
    destruct (build config args w) as [[[latest|e] w1] t1]; [|reflexivity].
    destruct (push_docker_image latest w1) as [[[[]|e] w2] t2]; [|reflexivity].
    cbn [without_volumes Config.tango_nodes]. unfold dict_values.
    rewrite map_map. cbn [snd].
    rewrite <- (map_map snd without_volumes_node).
    now rewrite for_each_without_volumes.
Qed.

(** ** Where processes run *)





End Further.

(** ** The further properties on the scripted host *)

Lemma valid_noon : valid_datetime noon.
Proof. unfold valid_datetime. simpl. lia. Qed.

Lemma valid_later : valid_datetime later.
Proof. unfold valid_datetime. simpl. lia. Qed.

Lemma strftime_inj_witness : noon = noon.
Proof.
  exact (strftime_inj noon noon valid_noon valid_noon eq_refl).
Defined.

Lemma strftime_monotone_witness :
  String.compare (strftime noon) (strftime later) = Lt.
Proof.
  exact (strftime_monotone noon later valid_noon valid_later).
Defined.

Lemma deploy_image_without_slash_witness :
  fst (fst (deploy (host := scripted) sample_config
                   (deploy_args "svc" "nodeA") (script [])))
  = Raise IndexError.
Proof.
  rewrite (@deploy_image_without_slash scripted sample_config
             (deploy_args "svc" "nodeA") node_a [] (script []) eq_refl eq_refl).
  reflexivity.
Defined.



Lemma deploy_raises_witness :
  exists tango_node command rc,
    rc <> 0%Z /\
    fst (fst (deploy (host := scripted) sample_config
                     (deploy_args "acme/svc:latest" "nodeA,nodeB")
                     (script [0; 1]%Z)))
    = Raise (command_failed (TangoNode.fqdn tango_node) command rc).
Proof.
  set (run := deploy (host := scripted) sample_config
                (deploy_args "acme/svc:latest" "nodeA,nodeB") (script [0; 1]%Z)).
  destruct (@deploy_raises scripted sample_config
              (deploy_args "acme/svc:latest" "nodeA,nodeB") (script [0; 1]%Z)
              (snd (fst run)) (snd run)
              (command_failed "a.example.org"
                              "docker tag acme/svc:latest svc:latest" 1)
              eq_refl)
    as [(name & He & _)|[(He & _)|
        (nodes & tango_node & command & rc & done & _ & _ & Hrc & He & _)]];
    [discriminate He|discriminate He|].
  exists tango_node, command, rc. split; [exact Hrc|].
  rewrite <- He. reflexivity.
Defined.

Lemma aio_steps_witness :
  exists r w' t,
    aio (host := scripted) sample_config (aio_args "svc") (script [1; 0; 1]%Z)
    = (r, w', t) /\
    firstn 3 (argvs t)
    = [["docker"; "build"; "-t"; "acme/svc:2024.03.05.120009"; "./svc"];
       ["docker"; "tag"; "acme/svc:2024.03.05.120009"; "acme/svc:latest"];
       ["docker"; "push"; "acme/svc:latest"]].
Proof.
  destruct (@aio_steps scripted sample_config (aio_args "svc")
              (script [1; 0; 1]%Z) eq_refl)
    as (rc1 & rc2 & rc3 & w3 & r & w' & t & _ & Haio).
  eexists r, w', _. split; [exact Haio|reflexivity].
Defined.


Lemma aio_raises_witness :
  exists tango_node command rc,
    In tango_node [node_a; node_b; node_c] /\
    rc <> 0%Z /\
    fst (fst (aio (host := scripted) sample_config (aio_args "svc")
                  (script [0; 0; 0; 0; 0; 0; 0; 7]%Z)))
    = Raise (command_failed (TangoNode.fqdn tango_node) command rc).
Proof.
  set (run := aio (host := scripted) sample_config (aio_args "svc")
                  (script [0; 0; 0; 0; 0; 0; 0; 7]%Z)).
  destruct (@aio_raises scripted sample_config (aio_args "svc")
              (script [0; 0; 0; 0; 0; 0; 0; 7]%Z)
              (snd (fst run)) (snd run)
              (command_failed "b.example.org"
                              "docker tag acme/svc:latest svc:latest" 7)
              eq_refl)
    as [(msg & He & _)|
        (tango_node & command & rc & done & Hin & Hrc & He & _)];
    [discriminate He|].
  exists tango_node, command, rc. split; [exact Hin|]. split; [exact Hrc|].
  rewrite <- He. reflexivity.
Defined.

Lemma org_option_names_the_image_witness :
  argvs (snd (main (host := scripted) sample_config (build_args_org "other" "svc")
                   (script [])))
  = [["docker"; "build"; "-t"; "other/svc:2024.03.05.120009"; "./svc"];
     ["docker"; "tag"; "other/svc:2024.03.05.120009"; "other/svc:latest"]].
Proof.
  refine (@org_option_names_the_image scripted sample_config
            (build_args_org "other" "svc") "other" (script [])
            eq_refl eq_refl _ eq_refl).
  discriminate.
Defined.

Lemma selector_of_names_witness :
  node_list_to_nodes sample_config "nodeB,nodeA" = Ok [node_b; node_a].
Proof.
  apply (selector_of_names sample_config ["nodeB"; "nodeA"] [node_b; node_a]).
  - discriminate.
  - repeat constructor.
  - repeat constructor.
  - discriminate.
Defined.

Lemma resolved_selector_witness :
  Forall2 (fun name node => get_tango_node sample_config name = Ok node)
          ["nodeA"; "nodeB"] [node_a; node_b] /\
  List.length [node_a; node_b] = 2.
Proof.
  refine (resolved_selector sample_config "nodeA,nodeB" [node_a; node_b]
                            _ eq_refl).
  discriminate.
Defined.

Lemma selector_with_empty_name_witness :
  exists name,
    node_list_to_nodes sample_config "nodeA," = Raise (KeyError name).
Proof.
  apply (selector_with_empty_name sample_config "nodeA,").
  - reflexivity.
  - right. exists "nodeA". reflexivity.
Defined.


